(** * testutil/server.go: the test-server helper of consul's testutil package

    A shallow embedding of [testutil/server.go]: the port scheme of
    [defaultServerConfig], the launch sequence of [NewTestServerConfig],
    the teardown [Stop] and the readiness check of [waitForLeader].

    Conventions.
    - Go's [uint64] and [int] are integers in [Z] with the wrap-around of
      the machine written out; [int] is taken 64 bits wide (amd64).
    - Go's [error] interface is [option Err]: [None] is [nil].
    - A pointer to a struct that may be [nil] is an [option].
    - A Go string is its bytes; the text [encoding/json] writes for it is
      [Utf8.coerce].
    - Everything the code does to the outside (files, processes, the
      network, the [testing.T] it is handed) is appended to a trace of
      calls; what the outside answers is read from an [Env]. *)

From Stdlib Require Import ZArith Lia List Ascii String.
From stdpp Require Import base option list strings pretty gmap.

Local Open Scope Z_scope.
Local Open Scope string_scope.
Local Open Scope list_scope.

(** ** Machine integers *)

Module GoInt.

(** [uint64] arithmetic is modulo 2^64. *)
Definition uint64 (z : Z) : Z := z mod 2 ^ 64.

(** The conversion [int(x)] of a [uint64] (and the result of [+] on [int]):
    the two's complement reading of the low 64 bits. *)
Definition int (z : Z) : Z := (z + 2 ^ 63) mod 2 ^ 64 - 2 ^ 63.

(** [a + b] on [int]. *)
Definition add (a b : Z) : Z := int (a + b).

Definition MaxInt : Z := 2 ^ 63 - 1.
Definition MinInt : Z := - 2 ^ 63.

End GoInt.

(** ** The configuration structs *)

Module TestPortConfig.
Record t := mk {
  DNS : Z;      (* json:"dns,omitempty" *)
  HTTP : Z;     (* json:"http,omitempty" *)
  RPC : Z;      (* json:"rpc,omitempty" *)
  SerfLan : Z;  (* json:"serf_lan,omitempty" *)
  SerfWan : Z;  (* json:"serf_wan,omitempty" *)
  Server : Z    (* json:"server,omitempty" *)
}.

(** The six ports of a port block, in the order of the struct's fields. *)
Definition ports (p : t) : list Z :=
  [DNS p; HTTP p; RPC p; SerfLan p; SerfWan p; Server p].
End TestPortConfig.

Module TestAddressConfig.
Record t := mk {
  HTTP : string  (* json:"http,omitempty" *)
}.
End TestAddressConfig.

Module TestServerConfig.
Record t := mk {
  Bootstrap : bool;                      (* json:"bootstrap,omitempty" *)
  Server : bool;                         (* json:"server,omitempty" *)
  DataDir : string;                      (* json:"data_dir,omitempty" *)
  LogLevel : string;                     (* json:"log_level,omitempty" *)
  Addresses : option TestAddressConfig.t; (* json:"addresses,omitempty" *)
  Ports : option TestPortConfig.t        (* json:"ports,omitempty" *)
}.

(** The assignment [c.DataDir = d]. *)
Definition set_DataDir (d : string) (c : t) : t :=
  mk (Bootstrap c) (Server c) d (LogLevel c) (Addresses c) (Ports c).
End TestServerConfig.

(** [type ServerConfigCallback func(c *TestServerConfig)]: the callback
    mutates the struct it is handed, which is all it is taken to do (it
    returns, and makes no call of its own); [None] is the [nil] callback. *)
Definition ServerConfigCallback : Type :=
  option (TestServerConfig.t -> TestServerConfig.t).

(** [type TestServer struct]. *)
Module TestServer.
Record t := mk {
  pid : Z;
  dataDir : string;
  config : TestServerConfig.t
}.
End TestServer.

(** ** The document [json.Marshal] encodes *)

#[warnings="-register-all"]
Inductive JSON : Type :=
| JBool (b : bool)
| JNumber (n : Z)
| JString (s : string)
| JObject (fields : list (string * JSON)).

(** A Go string is a sequence of bytes; [encoding/json] writes it as a JSON
    string of Unicode text, reading the bytes as UTF-8. *)
Module Utf8.

Definition in_range (lo hi : N) (c : ascii) : bool :=
  ((lo <=? N_of_ascii c) && (N_of_ascii c <=? hi))%N.

(** A continuation byte, 0x80 to 0xBF. *)
Definition cont (c : ascii) : bool := in_range 128 191 c.

(** The number of bytes of the encoding that starts with [c] and goes on
    in [rest], as [utf8.DecodeRuneInString] accepts it: one byte below 0x80;
    two bytes from 0xC2 to 0xDF; three from 0xE0 to 0xEF (with no overlong
    form after 0xE0 and no surrogate after 0xED); four from 0xF0 to 0xF4 (no
    overlong form after 0xF0, nothing above U+10FFFF after 0xF4). It is 0
    when the bytes are no encoding: the decoder then yields [RuneError]
    with width 1. *)
Definition rune_size (c : ascii) (rest : string) : nat :=
  let b := N_of_ascii c in
  if (b <? 128)%N then 1%nat
  else if in_range 194 223 c then
    match rest with
    | String c1 _ => if cont c1 then 2%nat else 0%nat
    | _ => 0%nat
    end
  else if in_range 224 239 c then
    match rest with
    | String c1 (String c2 _) =>
        let lo := if (b =? 224)%N then 160%N else 128%N in
        let hi := if (b =? 237)%N then 159%N else 191%N in
        if in_range lo hi c1 && cont c2 then 3%nat else 0%nat
    | _ => 0%nat
    end
  else if in_range 240 244 c then
    match rest with
    | String c1 (String c2 (String c3 _)) =>
        let lo := if (b =? 240)%N then 144%N else 128%N in
        let hi := if (b =? 244)%N then 143%N else 191%N in
        if in_range lo hi c1 && cont c2 && cont c3 then 4%nat else 0%nat
    | _ => 0%nat
    end
  else 0%nat.

(** U+FFFD, the replacement character, in UTF-8: EF BF BD. *)
Definition RuneError : string :=
  String (ascii_of_N 239) (String (ascii_of_N 191) (String (ascii_of_N 189) EmptyString)).

(** The text [encoding/json] writes for a Go string: every encoding is
    kept, and every byte that starts none is written as U+FFFD. [keep] is
    the number of bytes still to copy of the encoding under way. *)
Fixpoint coerce (keep : nat) (s : string) : string :=
  match s with
  | EmptyString => EmptyString
  | String c rest =>
      match keep with
      | S k => String c (coerce k rest)
      | O =>
          match rune_size c rest with
          | O => (RuneError ++ coerce 0 rest)%string
          | S k => String c (coerce k rest)
          end
      end
  end.

(** [utf8.ValidString]: every byte belongs to an encoding. *)
Fixpoint valid (keep : nat) (s : string) : bool :=
  match s with
  | EmptyString => true
  | String c rest =>
      match keep with
      | S k => valid k rest
      | O =>
          match rune_size c rest with
          | O => false
          | S k => valid k rest
          end
      end
  end.

Definition ValidString (s : string) : bool := valid 0 s.

End Utf8.

(** The JSON string [json.Marshal] writes for a Go string. *)
Definition json_string (s : string) : JSON := JString (Utf8.coerce 0 s).

(** A field tagged [omitempty] is left out at its zero value. *)
Definition omitempty {A : Type} (empty : A -> bool) (enc : A -> JSON)
  (key : string) (v : A) : list (string * JSON) :=
  if empty v then [] else [(key, enc v)].

Definition bool_field := omitempty negb JBool.
Definition int_field := omitempty (Z.eqb 0) JNumber.
Definition string_field := omitempty (String.eqb "") json_string.

(** A pointer field tagged [omitempty] is left out when [nil]. *)
Definition ptr_field {A : Type} (enc : A -> JSON) (key : string)
  (v : option A) : list (string * JSON) :=
  match v with
  | None => []
  | Some x => [(key, enc x)]
  end.

Definition marshalPorts (p : TestPortConfig.t) : JSON :=
  JObject (int_field "dns" (TestPortConfig.DNS p)
        ++ int_field "http" (TestPortConfig.HTTP p)
        ++ int_field "rpc" (TestPortConfig.RPC p)
        ++ int_field "serf_lan" (TestPortConfig.SerfLan p)
        ++ int_field "serf_wan" (TestPortConfig.SerfWan p)
        ++ int_field "server" (TestPortConfig.Server p)).

Definition marshalAddresses (a : TestAddressConfig.t) : JSON :=
  JObject (string_field "http" (TestAddressConfig.HTTP a)).

(** [json.Marshal(consulConfig)], field by field in declaration order. *)
Definition Marshal (c : TestServerConfig.t) : JSON :=
  JObject (bool_field "bootstrap" (TestServerConfig.Bootstrap c)
        ++ bool_field "server" (TestServerConfig.Server c)
        ++ string_field "data_dir" (TestServerConfig.DataDir c)
        ++ string_field "log_level" (TestServerConfig.LogLevel c)
        ++ ptr_field marshalAddresses "addresses" (TestServerConfig.Addresses c)
        ++ ptr_field marshalPorts "ports" (TestServerConfig.Ports c)).

(** The member of an object stored under [key] (the first one). *)
Fixpoint assoc (key : string) (fields : list (string * JSON)) : option JSON :=
  match fields with
  | [] => None
  | (k, v) :: rest => if String.eqb k key then Some v else assoc key rest
  end.

Definition member (key : string) (doc : JSON) : option JSON :=
  match doc with
  | JObject fields => assoc key fields
  | _ => None
  end.

(** ** Errors, HTTP responses and what the outside answers *)

(** The error values the code meets: those the operating system or the
    standard library hands back, and those built with [fmt.Errorf], kept
    as the format with its operands. *)
Inductive Err : Type :=
| OsError (msg : string)
| Errorf (format : string) (args : list string)
| RuntimeError (msg : string).

(** Go's [error]: an interface value, [nil] when [None]. *)
Definition error : Type := option Err.
Definition nil : error := None.

Module Header.

Definition is_lower (c : ascii) : bool :=
  ((97 <=? N_of_ascii c) && (N_of_ascii c <=? 122))%N.
Definition is_upper (c : ascii) : bool :=
  ((65 <=? N_of_ascii c) && (N_of_ascii c <=? 90))%N.
Definition to_upper (c : ascii) : ascii := ascii_of_N (N_of_ascii c - 32).
Definition to_lower (c : ascii) : ascii := ascii_of_N (N_of_ascii c + 32).

(** [textproto.CanonicalMIMEHeaderKey] on a key of letters, digits and
    dashes: the first letter and every letter after a dash in upper case,
    the others in lower case. *)
Fixpoint canonical (upper : bool) (s : string) : string :=
  match s with
  | EmptyString => EmptyString
  | String c rest =>
      let c' := if upper && is_lower c then to_upper c
                else if negb upper && is_upper c then to_lower c
                else c in
      String c' (canonical (Ascii.eqb c' "-"%char) rest)
  end.

Definition CanonicalMIMEHeaderKey (s : string) : string := canonical true s.

(** [http.Header] is [map[string][]string]. *)
Definition t : Type := gmap string (list string).

(** [h.Get(key)]: the first value stored under the canonical form of
    [key], and the empty string when there is none. *)
Definition Get (h : t) (key : string) : string :=
  match h !! CanonicalMIMEHeaderKey key with
  | Some (v :: _) => v
  | _ => ""
  end.

End Header.

(** [*http.Response], as far as the code reads it. *)
Record Response := { Header : Header.t }.

(** The two results of [http.Get]: a response, or a transport error. *)
Inductive GetResult : Type :=
| GetOk (resp : Response)
| GetErr (err : Err).

(** The answers of the operating system, the file system and the network
    to the calls the code makes. *)
Record Env := {
  exec_LookPath : string -> string * error;
  ioutil_TempDir : string -> string -> string * error;
  ioutil_TempFile : string -> string -> string * error; (* the file's name *)
  File_Write : string -> JSON -> error;
  Cmd_Start : list string -> Z * error;                 (* the child's pid *)
  Cmd_Run : list string -> error;
  http_Get : nat -> string -> GetResult  (* the answer to the n-th request *)
}.

(** The calls the code makes, in the order it makes them. *)
Inductive Event : Type :=
| T_Log (msg : string)
| T_SkipNow
| T_Fatalf (format : string) (err : error)
| TempDir (dir prefix : string)
| TempFile (dir prefix : string)
| Write (file : string) (content : JSON)
| Close (file : string)
| Remove (name : string)
| RemoveAll (path : string)
| Start (argv : list string)
| Run (argv : list string)
| HttpGet (url : string)
| BodyClose
| Println (line : string)
| Sleep.

(** The state the code runs in: the package variable [offset], the number
    of HTTP requests issued so far, and the calls made so far. *)
Record World := {
  offset : Z;
  requests : nat;
  trace : list Event
}.

Definition emit (e : Event) (w : World) : World :=
  {| offset := offset w; requests := requests w; trace := trace w ++ [e] |}.

(** A fresh process: [var offset uint64] is zero. *)
Definition init : World := {| offset := 0; requests := 0; trace := [] |}.

(** ** Control flow: returning, panicking, leaving the goroutine *)

Inductive Outcome (A : Type) : Type :=
| Ret (a : A)          (* the function returned *)
| Panic (v : error)    (* panic(v) unwinds the stack *)
| Goexit.              (* runtime.Goexit, as t.SkipNow and t.FailNow call it *)
Arguments Ret {A} a.
Arguments Panic {A} v.
Arguments Goexit {A}.

Definition M (A : Type) : Type := World -> Outcome A * World.

#[global] Instance M_ret : MRet M := fun A a w => (Ret a, w).

#[global] Instance M_bind : MBind M := fun A B k m w =>
  match m w with
  | (Ret a, w') => k a w'
  | (Panic v, w') => (Panic v, w')
  | (Goexit, w') => (Goexit, w')
  end.

Definition call (e : Event) : M unit := fun w => (Ret tt, emit e w).
Definition panic {A : Type} (v : error) : M A := fun w => (Panic v, w).

(** [defer f(); body]: the deferred call runs when the body is left,
    however it is left; what the deferred call returns is dropped. *)
Definition defer {A : Type} (deferred : Event) (body : M A) : M A :=
  fun w => let (o, w') := body w in (o, emit deferred w').

(** [if cond { then_ }]. *)
Definition when (cond : bool) (then_ : M unit) : M unit :=
  if cond then then_ else mret tt.

Definition is_err (e : error) : bool :=
  match e with Some _ => true | None => false end.

(** The methods of [*testing.T] the code calls. *)
Definition t_Log (msg : string) : M unit := call (T_Log msg).
Definition t_SkipNow : M unit := fun w => (Goexit, emit T_SkipNow w).
Definition t_Fatalf (format : string) (err : error) : M unit :=
  fun w => (Goexit, emit (T_Fatalf format err) w).

(** ** The program *)

(** [idx := int(atomic.AddUint64(&offset, 1))]: the counter is incremented
    (modulo 2^64) and its new value converted to [int]. *)
Definition nextIndex : M Z := fun w =>
  let new := GoInt.uint64 (offset w + 1) in
  (Ret (GoInt.int new),
   {| offset := new; requests := requests w; trace := trace w |}).

(** The [Ports] literal of [defaultServerConfig], for the index [idx]. *)
Definition defaultPorts (idx : Z) : TestPortConfig.t :=
  {| TestPortConfig.DNS := GoInt.add 19000 idx;
     TestPortConfig.HTTP := GoInt.add 18800 idx;
     TestPortConfig.RPC := GoInt.add 18600 idx;
     TestPortConfig.SerfLan := GoInt.add 18200 idx;
     TestPortConfig.SerfWan := GoInt.add 18400 idx;
     TestPortConfig.Server := GoInt.add 18000 idx |}.

(** The struct literal [defaultServerConfig] returns, for the index [idx]. *)
Definition defaultConfig (idx : Z) : TestServerConfig.t :=
  {| TestServerConfig.Bootstrap := true;
     TestServerConfig.Server := true;
     TestServerConfig.DataDir := "";
     TestServerConfig.LogLevel := "debug";
     TestServerConfig.Addresses := None;
     TestServerConfig.Ports := Some (defaultPorts idx) |}.

Definition defaultServerConfig : M TestServerConfig.t :=
  idx ← nextIndex;
  mret (defaultConfig idx).

(** [json.Marshal(consulConfig)] with its error result, which is [nil] for
    a struct of booleans, strings, integers and pointers to such structs. *)
Definition json_Marshal (c : TestServerConfig.t) : JSON * error :=
  (Marshal c, nil).

(** [fmt.Sprintf("%d", n)]. *)
Definition Sprintf_d (n : Z) : string := pretty n.

(** Modelled from the spec: [WaitForResult], the readiness poller whose file
    (testutil/wait.go) is not among the sources. It invokes [check]
    repeatedly; on [(true, _)] it returns at once; on [(false, err)] it
    sleeps and tries again; after a bounded number of attempts without
    success it invokes [on_give_up] with the last error and stops. The bound
    is [S more] attempts. *)
Fixpoint WaitForResult (more : nat) (check : M (bool * error))
  (on_give_up : error -> M unit) : M unit :=
  '(ok, err) ← check;
  if ok : bool then mret tt
  else match more with
       | O => on_give_up err
       | S n => call Sleep ;; WaitForResult n check on_give_up
       end.

Section Program.

Variable env : Env.
(** The poller's bound: it gives up after [S retries] attempts. *)
Variable retries : nat.

Definition LookPath (file : string) : M (string * error) :=
  mret (exec_LookPath env file).

Definition ioutil_TempDir_ (dir prefix : string) : M (string * error) :=
  call (TempDir dir prefix) ;; mret (ioutil_TempDir env dir prefix).

Definition ioutil_TempFile_ (dir prefix : string) : M (string * error) :=
  call (TempFile dir prefix) ;; mret (ioutil_TempFile env dir prefix).

Definition configFile_Write (file : string) (content : JSON) : M error :=
  call (Write file content) ;; mret (File_Write env file content).

Definition cmd_Start (argv : list string) : M (Z * error) :=
  call (Start argv) ;; mret (Cmd_Start env argv).

Definition cmd_Run (argv : list string) : M error :=
  call (Run argv) ;; mret (Cmd_Run env argv).

(** [http.Get(url)]: the next answer of the network. *)
Definition http_Get_ (url : string) : M GetResult := fun w =>
  (Ret (http_Get env (requests w) url),
   emit (HttpGet url)
     {| offset := offset w; requests := S (requests w); trace := trace w |}).

(** The function literal [waitForLeader] hands to [WaitForResult]. *)
Definition readinessCheck (url : string) : M (bool * error) :=
  r ← http_Get_ url;
  match r with
  | GetErr err => mret (false, Some err)
  | GetOk resp =>
      call BodyClose ;;
      let leader := Header.Get (Header resp) "X-Consul-KnownLeader" in
      if negb (String.eqb leader "true") then
        call (Println leader) ;;
        mret (false, Some (Errorf "Consul leader status: %#v" [leader]))
      else if String.eqb (Header.Get (Header resp) "X-Consul-Index") "0" then
        mret (false, Some (Errorf "Consul index is 0" []))
      else
        mret (true, nil)
  end.

(** The second function literal: [func(err error) { panic(err) }]. *)
Definition giveUp (err : error) : M unit := panic err.

Definition waitForLeader (s : TestServer.t) : M error :=
  match TestServerConfig.Ports (TestServer.config s) with
  | None =>
      (* s.config.Ports.HTTP through a nil pointer *)
      panic (Some (RuntimeError "invalid memory address or nil pointer dereference"))
  | Some ports =>
      let url := ("http://127.0.0.1:" ++ Sprintf_d (TestPortConfig.HTTP ports)
                  ++ "/v1/catalog/nodes")%string in
      WaitForResult retries (readinessCheck url) giveUp ;;
      mret nil
  end.

(** [NewTestServerConfig] from [consulConfig := defaultServerConfig()] to
    its end: the part that runs under [defer os.Remove(configFile.Name())]. *)
Definition launch (cb : ServerConfigCallback) (dataDir configFile : string)
  : M TestServer.t :=
  consulConfig ← defaultServerConfig;
  let consulConfig := TestServerConfig.set_DataDir dataDir consulConfig in
  let consulConfig :=
    match cb with
    | Some f => f consulConfig
    | None => consulConfig
    end in
  let '(configContent, err) := json_Marshal consulConfig in
  when (is_err err) (t_Fatalf "err: %s" err) ;;
  err ← configFile_Write configFile configContent;
  when (is_err err) (t_Fatalf "err: %s" err) ;;
  call (Close configFile) ;;
  (* Start the server *)
  '(pid, err) ← cmd_Start ["consul"; "agent"; "-config-file"; configFile];
  when (is_err err) (t_Fatalf "err: %s" err) ;;
  let server := {| TestServer.config := consulConfig;
                   TestServer.pid := pid;
                   TestServer.dataDir := dataDir |} in
  err ← waitForLeader server;
  when (is_err err) (t_Fatalf "err: %s" err) ;;
  mret server.

Definition NewTestServerConfig (cb : ServerConfigCallback) : M TestServer.t :=
  '(path, err) ← LookPath "consul";
  when (is_err err || String.eqb path "")
    (t_Log "consul not found on $PATH, skipping" ;; t_SkipNow) ;;
  '(dataDir, err) ← ioutil_TempDir_ "" "consul";
  when (is_err err) (t_Fatalf "err: %s" err) ;;
  '(configFile, err) ← ioutil_TempFile_ "" "consul";
  when (is_err err) (t_Fatalf "err: %s" err) ;;
  defer (Remove configFile) (launch cb dataDir configFile).

Definition NewTestServer : M TestServer.t := NewTestServerConfig None.

Definition Stop (s : TestServer.t) : M unit :=
  defer (RemoveAll (TestServer.dataDir s)) (
    err ← cmd_Run ["kill"; "-9"; Sprintf_d (TestServer.pid s)];
    if is_err err then panic err else mret tt).

End Program.

(** ** Vocabulary of the statements *)

(** The configuration [NewTestServerConfig] serializes: the defaults for
    the index drawn, then the data directory, then the callback. *)
Definition configured (cb : ServerConfigCallback) (dataDir : string) (idx : Z)
  : TestServerConfig.t :=
  let defaults := TestServerConfig.set_DataDir dataDir (defaultConfig idx) in
  match cb with
  | Some f => f defaults
  | None => defaults
  end.

(** [n] index requests one after the other, as [n] calls of
    [defaultServerConfig] make them; the indices drawn, oldest first. *)
Fixpoint allocate (n : nat) : M (list Z) :=
  match n with
  | O => mret []
  | S k => idx ← nextIndex; rest ← allocate k; mret (idx :: rest)
  end.

Definition indices (n : nat) (w : World) : list Z :=
  match fst (allocate n w) with
  | Ret l => l
  | _ => []
  end.

(** Every element is greater than all the elements before it. *)
Definition strictly_increasing (l : list Z) : Prop :=
  forall (i j : nat) (a b : Z),
    (i < j)%nat -> l !! i = Some a -> l !! j = Some b -> a < b.

(** The calls the readiness poller makes. *)
Definition polling (e : Event) : Prop :=
  match e with
  | HttpGet _ | BodyClose | Println _ | Sleep => True
  | _ => False
  end.

(** [w'] is [w] after some more calls, each of them in [P]; the counter is
    left alone. *)
Definition extends_by (P : Event -> Prop) (w w' : World) : Prop :=
  exists evs, trace w' = trace w ++ evs /\ Forall P evs /\ offset w' = offset w.

(** Every call but the write of a file. *)
Definition not_Write (e : Event) : Prop :=
  match e with
  | Write _ _ => False
  | _ => True
  end.

(** A header is present in a response when the map holds a value under the
    key's canonical form. *)
Definition present (resp : Response) (key : string) : Prop :=
  exists v vs, Header resp !! Header.CanonicalMIMEHeaderKey key = Some (v :: vs).

(** The address [waitForLeader] polls, for the HTTP port [port]. *)
Definition statusURL (port : Z) : string :=
  ("http://127.0.0.1:" ++ Sprintf_d port ++ "/v1/catalog/nodes")%string.

(** The calls of a poll of [url]: every request goes to [url]. *)
Definition polling_at (url : string) (e : Event) : Prop :=
  match e with
  | HttpGet u => u = url
  | BodyClose | Println _ | Sleep => True
  | _ => False
  end.

(** The calls [launch] makes itself or through [waitForLeader]. *)
Definition launching (e : Event) : Prop :=
  match e with
  | Write _ _ | Close _ | Start _ | T_Fatalf _ _ => True
  | HttpGet _ | BodyClose | Println _ | Sleep => True
  | _ => False
  end.

(** Every call but those of the teardown: running a command to completion
    (the [kill] of [Stop]) and removing a directory tree. *)
Definition no_teardown (e : Event) : Prop :=
  match e with
  | Run _ | RemoveAll _ => False
  | _ => True
  end.

(** Every call but the removal of a file. *)
Definition not_Remove (e : Event) : Prop :=
  match e with
  | Remove _ => False
  | _ => True
  end.

(** The binary is found, and the directory [dataDir] and the file
    [configFile] are created. *)
Definition created (env : Env) (dataDir configFile : string) : Prop :=
  (exists path, exec_LookPath env "consul" = (path, nil) /\ path <> "")
  /\ ioutil_TempDir env "" "consul" = (dataDir, nil)
  /\ ioutil_TempFile env "" "consul" = (configFile, nil).

(** A port a socket can be bound to. *)
Definition valid_port (p : Z) : Prop := 0 < p <= 65535.

(** ** Sample environments *)

(** A response that reports a known leader and a positive index. *)

Definition leaderKnown : Response :=
  {| Header := {[ "X-Consul-Knownleader" := ["true"]; "X-Consul-Index" := ["5"] ]} |}.

(** An environment in which every call succeeds; the agent refuses the
    first request and answers the later ones with [leaderKnown]. *)
Definition happyEnv : Env :=
  {| exec_LookPath := fun _ => ("/usr/bin/consul", nil);
     ioutil_TempDir := fun _ _ => ("/tmp/consul1", nil);
     ioutil_TempFile := fun _ _ => ("/tmp/consul2", nil);
     File_Write := fun _ _ => nil;
     Cmd_Start := fun _ => (4242, nil);
     Cmd_Run := fun _ => nil;
     http_Get := fun n _ => match n with
                            | O => GetErr (OsError "connection refused")
                            | S _ => GetOk leaderKnown
                            end |}.

(** An environment without the agent binary on the search path. *)
Definition noBinaryEnv : Env :=
  {| exec_LookPath := fun _ => ("", Some (OsError "executable file not found in $PATH"));
     ioutil_TempDir := ioutil_TempDir happyEnv;
     ioutil_TempFile := ioutil_TempFile happyEnv;
     File_Write := File_Write happyEnv;
     Cmd_Start := Cmd_Start happyEnv;
     Cmd_Run := Cmd_Run happyEnv;
     http_Get := http_Get happyEnv |}.

(** An environment in which [kill] fails. *)
Definition killFailsEnv : Env :=
  {| exec_LookPath := exec_LookPath happyEnv;
     ioutil_TempDir := ioutil_TempDir happyEnv;
     ioutil_TempFile := ioutil_TempFile happyEnv;
     File_Write := File_Write happyEnv;
     Cmd_Start := Cmd_Start happyEnv;
     Cmd_Run := fun _ => Some (OsError "exit status 1");
     http_Get := http_Get happyEnv |}.

(** What the readiness check of [url] returns when the request it makes is
    the [n]-th of the process. *)
Definition checked (env : Env) (url : string) (n : nat) : Outcome (bool * error) :=
  fst (readinessCheck env url {| offset := 0; requests := n; trace := [] |}).

(** That check reports the agent ready. *)
Definition succeeds (env : Env) (url : string) (n : nat) : bool :=
  match checked env url n with
  | Ret (ok, _) => ok
  | _ => false
  end.

(** The Go string of the bytes [l]. *)
Definition bytes (l : list N) : string :=
  fold_right (fun n s => String (ascii_of_N n) s) EmptyString l.

(** The strings of a configuration are UTF-8. *)
Definition valid_strings (c : TestServerConfig.t) : Prop :=
  Utf8.ValidString (TestServerConfig.DataDir c) = true
  /\ Utf8.ValidString (TestServerConfig.LogLevel c) = true
  /\ match TestServerConfig.Addresses c with
     | Some a => Utf8.ValidString (TestAddressConfig.HTTP a) = true
     | None => True
     end.

(** A Go string that is not UTF-8: the one byte 0xFF. *)
Definition notUtf8 : string := String (ascii_of_N 255) EmptyString.

(** A callback that sets the data directory, as [c.DataDir = d]. *)
Definition setDataDir (d : string) : ServerConfigCallback :=
  Some (TestServerConfig.set_DataDir d).

(** A network that gives the same answer to every request; the rest of the
    environment is that of [happyEnv]. *)
Definition answering (r : GetResult) : Env :=
  {| exec_LookPath := exec_LookPath happyEnv;
     ioutil_TempDir := ioutil_TempDir happyEnv;
     ioutil_TempFile := ioutil_TempFile happyEnv;
     File_Write := File_Write happyEnv;
     Cmd_Start := Cmd_Start happyEnv;
     Cmd_Run := Cmd_Run happyEnv;
     http_Get := fun _ _ => r |}.

(** A response that reports a known leader and carries no index header. *)
Definition leaderOnly : Response :=
  {| Header := {[ "X-Consul-Knownleader" := ["true"] ]} |}.

(** Environments in which one call of the launch fails. *)
Definition tempDirFailsEnv : Env :=
  {| exec_LookPath := exec_LookPath happyEnv;
     ioutil_TempDir := fun _ _ => ("", Some (OsError "no space left on device"));
     ioutil_TempFile := ioutil_TempFile happyEnv;
     File_Write := File_Write happyEnv;
     Cmd_Start := Cmd_Start happyEnv;
     Cmd_Run := Cmd_Run happyEnv;
     http_Get := http_Get happyEnv |}.

Definition tempFileFailsEnv : Env :=
  {| exec_LookPath := exec_LookPath happyEnv;
     ioutil_TempDir := ioutil_TempDir happyEnv;
     ioutil_TempFile := fun _ _ => ("", Some (OsError "no space left on device"));
     File_Write := File_Write happyEnv;
     Cmd_Start := Cmd_Start happyEnv;
     Cmd_Run := Cmd_Run happyEnv;
     http_Get := http_Get happyEnv |}.

Definition writeFailsEnv : Env :=
  {| exec_LookPath := exec_LookPath happyEnv;
     ioutil_TempDir := ioutil_TempDir happyEnv;
     ioutil_TempFile := ioutil_TempFile happyEnv;
     File_Write := fun _ _ => Some (OsError "no space left on device");
     Cmd_Start := Cmd_Start happyEnv;
     Cmd_Run := Cmd_Run happyEnv;
     http_Get := http_Get happyEnv |}.

Definition startFailsEnv : Env :=
  {| exec_LookPath := exec_LookPath happyEnv;
     ioutil_TempDir := ioutil_TempDir happyEnv;
     ioutil_TempFile := ioutil_TempFile happyEnv;
     File_Write := File_Write happyEnv;
     Cmd_Start := fun _ => (0, Some (OsError "fork/exec: permission denied"));
     Cmd_Run := Cmd_Run happyEnv;
     http_Get := http_Get happyEnv |}.

(** A callback that clears the port block, as [c.Ports = nil]. *)
Definition clearPorts : ServerConfigCallback :=
  Some (fun c =>
    TestServerConfig.mk (TestServerConfig.Bootstrap c) (TestServerConfig.Server c)
      (TestServerConfig.DataDir c) (TestServerConfig.LogLevel c)
      (TestServerConfig.Addresses c) None).

(** ** Facts about machine integers *)

Lemma int_range (z : Z) : GoInt.MinInt <= GoInt.int z <= GoInt.MaxInt.
Proof.
  unfold GoInt.int, GoInt.MinInt, GoInt.MaxInt.
  pose proof (Z.mod_pos_bound (z + 2 ^ 63) (2 ^ 64) ltac:(lia)). lia.
Qed.

Lemma int_small (z : Z) : GoInt.MinInt <= z <= GoInt.MaxInt -> GoInt.int z = z.
Proof.
  unfold GoInt.int, GoInt.MinInt, GoInt.MaxInt. intros H.
  rewrite Z.mod_small by lia. lia.
Qed.

(** Two integers with the same [int] image differ by a multiple of 2^64. *)
Lemma int_eq_inv (a b : Z) : GoInt.int a = GoInt.int b -> exists k, a - b = k * 2 ^ 64.
Proof.
  unfold GoInt.int. intros H.
  assert (E : (a + 2 ^ 63) mod 2 ^ 64 = (b + 2 ^ 63) mod 2 ^ 64) by lia.
  exists ((a + 2 ^ 63) / 2 ^ 64 - (b + 2 ^ 63) / 2 ^ 64).
  pose proof (Z.div_mod (a + 2 ^ 63) (2 ^ 64) ltac:(lia)).
  pose proof (Z.div_mod (b + 2 ^ 63) (2 ^ 64) ltac:(lia)).
  lia.
Qed.

Lemma add_inj_near (a b i j : Z) :
  Z.abs ((a + i) - (b + j)) < 2 ^ 64 -> GoInt.add a i = GoInt.add b j -> a + i = b + j.
Proof.
  unfold GoInt.add. intros Hd H. destruct (int_eq_inv _ _ H) as [k Hk].
  assert (k = 0) by nia. subst k. lia.
Qed.

(** ** The port scheme *)

Example canonical_leader_key :
  Header.CanonicalMIMEHeaderKey "X-Consul-KnownLeader" = "X-Consul-Knownleader".
Proof. reflexivity. Qed.

Example canonical_index_key :
  Header.CanonicalMIMEHeaderKey "X-Consul-Index" = "X-Consul-Index".
Proof. reflexivity. Qed.

(** Two ports of the scheme are equal only when base plus index agree. *)
Lemma port_eq_inv a b i j :
  Z.abs a <= 20000 -> Z.abs b <= 20000 -> Z.abs (i - j) < 200 ->
  GoInt.add a i = GoInt.add b j -> a - b = j - i.
Proof.
  intros Ha Hb Hd H. apply add_inj_near in H; lia.
Qed.

(** C2: for two indices that differ by less than 200, the smallest distance
    between two role bases, no port computed for one equals a port computed
    for the other. *)
Theorem ports_disjoint (i j : Z) :
  i <> j -> Z.abs (i - j) < 200 ->
  forall p q,
    In p (TestPortConfig.ports (defaultPorts i)) ->
    In q (TestPortConfig.ports (defaultPorts j)) ->
    p <> q.
Proof.
  intros Hne Hd p q Hp Hq E. subst q.
  unfold TestPortConfig.ports, defaultPorts in Hp, Hq. simpl in Hp, Hq.
  repeat (destruct Hp as [Hp | Hp]; [ | ]); try contradiction; subst p;
    repeat (destruct Hq as [Hq | Hq]; [ | ]); try contradiction;
    apply port_eq_inv in Hq; lia.
Qed.

Lemma ports_disjoint_witness :
  Forall (fun p => Forall (fun q => p <> q) (TestPortConfig.ports (defaultPorts 2)))
    (TestPortConfig.ports (defaultPorts 1)).
Proof.
  apply List.Forall_forall. intros p Hp.
  apply List.Forall_forall. intros q Hq.
  apply (ports_disjoint 1 2); [lia | vm_compute; reflexivity | exact Hp | exact Hq].
Defined.

(** X1: the bound is sharp: 200 apart, the LAN gossip port of one instance is
    the consensus port of the other (18201 for the indices 1 and 201). *)
Lemma ports_collide_at_200 (i : Z) :
  TestPortConfig.SerfLan (defaultPorts i)
  = TestPortConfig.Server (defaultPorts (i + 200))
  /\ TestPortConfig.SerfLan (defaultPorts 1) = 18201
  /\ TestPortConfig.Server (defaultPorts 201) = 18201.
Proof.
  split; [ | split; reflexivity].
  unfold defaultPorts, GoInt.add. cbn.
  f_equal. lia.
Qed.

(** C3: the default ports are a function of the index alone, each the sum
    (on [int]) of its role's base and the index: whatever the state,
    [defaultServerConfig] returns the literal for the index it drew; as long
    as the sums fit an [int] they are the sums of integers; and for index 1,
    which is the index of the first call in a process, the ports are 19001,
    18801, 18601, 18201, 18401 and 18001. *)
Theorem default_ports_of_index (i : Z) (w : World) :
  fst (defaultServerConfig w)
    = Ret (defaultConfig (GoInt.int (GoInt.uint64 (offset w + 1))))
  /\ TestServerConfig.Ports (defaultConfig i) = Some (defaultPorts i)
  /\ defaultPorts i
     = {| TestPortConfig.DNS := GoInt.add 19000 i;
          TestPortConfig.HTTP := GoInt.add 18800 i;
          TestPortConfig.RPC := GoInt.add 18600 i;
          TestPortConfig.SerfLan := GoInt.add 18200 i;
          TestPortConfig.SerfWan := GoInt.add 18400 i;
          TestPortConfig.Server := GoInt.add 18000 i |}
  /\ (GoInt.MinInt <= i <= GoInt.MaxInt - 19000 ->
      defaultPorts i
      = {| TestPortConfig.DNS := 19000 + i;
           TestPortConfig.HTTP := 18800 + i;
           TestPortConfig.RPC := 18600 + i;
           TestPortConfig.SerfLan := 18200 + i;
           TestPortConfig.SerfWan := 18400 + i;
           TestPortConfig.Server := 18000 + i |})
  /\ defaultPorts 1
     = {| TestPortConfig.DNS := 19001;
          TestPortConfig.HTTP := 18801;
          TestPortConfig.RPC := 18601;
          TestPortConfig.SerfLan := 18201;
          TestPortConfig.SerfWan := 18401;
          TestPortConfig.Server := 18001 |}
  /\ fst (defaultServerConfig init) = Ret (defaultConfig 1).
Proof.
  split; [reflexivity | ].
  split; [reflexivity | ].
  split; [reflexivity | ].
  split; [ | split; reflexivity].
  intros Hi. unfold defaultPorts, GoInt.add.
  unfold GoInt.MinInt, GoInt.MaxInt in Hi.
  rewrite !int_small by (unfold GoInt.MinInt, GoInt.MaxInt; lia).
  reflexivity.
Qed.

Lemma default_ports_of_index_witness :
  defaultPorts 7
  = {| TestPortConfig.DNS := 19000 + 7;
       TestPortConfig.HTTP := 18800 + 7;
       TestPortConfig.RPC := 18600 + 7;
       TestPortConfig.SerfLan := 18200 + 7;
       TestPortConfig.SerfWan := 18400 + 7;
       TestPortConfig.Server := 18000 + 7 |}.
Proof.
  apply (default_ports_of_index 7 init).
  vm_compute. split; discriminate.
Defined.

(** ** The index allocator *)

Lemma uint64_add_l (a b : Z) : GoInt.uint64 (GoInt.uint64 a + b) = GoInt.uint64 (a + b).
Proof. unfold GoInt.uint64. apply Zplus_mod_idemp_l. Qed.

Lemma int_uint64 (z : Z) : GoInt.int (GoInt.uint64 z) = GoInt.int z.
Proof. unfold GoInt.int, GoInt.uint64. now rewrite Zplus_mod_idemp_l. Qed.

(** The [k]-th of [n] requests (counting from 0) returns the counter's
    value [k + 1] steps on, read as an [int]. *)
Lemma allocate_lookup (n : nat) :
  forall w, exists l w',
    allocate n w = (Ret l, w')
    /\ length l = n
    /\ forall k, (k < n)%nat ->
         l !! k = Some (GoInt.int (offset w + Z.of_nat k + 1)).
Proof.
  induction n as [ | n IH]; intros w.
  - exists [], w. repeat split. intros k Hk. lia.
  - destruct (IH {| offset := GoInt.uint64 (offset w + 1);
                    requests := requests w; trace := trace w |})
      as (l & w' & Hrun & Hlen & Hl).
    exists (GoInt.int (GoInt.uint64 (offset w + 1)) :: l), w'.
    split; [ | split].
    + cbn [allocate]. unfold mbind, M_bind, nextIndex.
      rewrite Hrun. reflexivity.
    + simpl. now rewrite Hlen.
    + intros [ | k] Hk.
      * simpl. rewrite int_uint64. do 2 f_equal. lia.
      * simpl. rewrite Hl by lia. simpl.
        rewrite <- (int_uint64 (GoInt.uint64 _ + _ + _)).
        rewrite <- Z.add_assoc, uint64_add_l, int_uint64.
        do 2 f_equal. lia.
Qed.

Lemma indices_lookup (n k : nat) (w : World) :
  (k < n)%nat -> indices n w !! k = Some (GoInt.int (offset w + Z.of_nat k + 1)).
Proof.
  intros Hk. unfold indices.
  destruct (allocate_lookup n w) as (l & w' & Hrun & _ & Hl).
  rewrite Hrun. simpl. now apply Hl.
Qed.

Lemma indices_length (n : nat) (w : World) : length (indices n w) = n.
Proof.
  unfold indices.
  destruct (allocate_lookup n w) as (l & w' & Hrun & Hlen & _).
  now rewrite Hrun.
Qed.

(** C4, as stated, fails: the counter is a [uint64] read as an [int], so the
    2^63-th request of a process returns the least [int], which is below the
    1 the first request returned. *)
Lemma indices_not_always_increasing :
  ~ (forall n : nat, strictly_increasing (indices n init)).
Proof.
  intros H.
  pose (last := Z.to_nat (2 ^ 63 - 1)).
  assert (Hlast : Z.of_nat last = 2 ^ 63 - 1) by (unfold last; lia).
  assert (H0 : indices (S last) init !! O = Some 1).
  { rewrite indices_lookup by lia. reflexivity. }
  assert (H1 : indices (S last) init !! last = Some (- 2 ^ 63)).
  { rewrite indices_lookup by lia. rewrite Hlast. reflexivity. }
  assert (Hpos : (0 < last)%nat) by lia.
  specialize (H (S last) O last 1 (- 2 ^ 63) Hpos H0 H1).
  lia.
Qed.

(** C4, amended: in a fresh process, fewer than 2^63 requests in sequence
    return 1, 2, 3, ...: the first returns 1, each index is greater than all
    the indices returned before it, and none is returned twice. *)
Theorem indices_increasing (n : nat) :
  Z.of_nat n < 2 ^ 63 ->
  fst (allocate n init) = Ret (indices n init)
  /\ length (indices n init) = n
  /\ (forall k, (k < n)%nat -> indices n init !! k = Some (Z.of_nat k + 1))
  /\ strictly_increasing (indices n init)
  /\ NoDup (indices n init).
Proof.
  intros Hn.
  assert (Hk : forall k, (k < n)%nat ->
            indices n init !! k = Some (Z.of_nat k + 1)).
  { intros k Hk. rewrite indices_lookup by exact Hk. simpl offset.
    rewrite int_small by (unfold GoInt.MinInt, GoInt.MaxInt; lia).
    f_equal; lia. }
  assert (Hinc : strictly_increasing (indices n init)).
  { intros i j a b Hij Hi Hj.
    assert (Hjn : (j < n)%nat).
    { apply lookup_lt_Some in Hj. now rewrite indices_length in Hj. }
    rewrite Hk in Hi by lia. rewrite Hk in Hj by lia.
    injection Hi as <-. injection Hj as <-. lia. }
  split; [ | split; [apply indices_length | split; [exact Hk | split; [exact Hinc | ]]]].
  - unfold indices. destruct (allocate_lookup n init) as (l & w' & Hrun & _).
    now rewrite Hrun.
  - apply NoDup_alt. intros i j x Hi Hj.
    destruct (Nat.lt_trichotomy i j) as [Hlt | [Heq | Hgt]]; [ | exact Heq | ].
    + pose proof (Hinc i j x x Hlt Hi Hj). lia.
    + pose proof (Hinc j i x x Hgt Hj Hi). lia.
Qed.

Lemma indices_increasing_witness :
  fst (allocate 3 init) = Ret (indices 3 init)
  /\ length (indices 3 init) = 3%nat
  /\ (forall k, (k < 3)%nat -> indices 3 init !! k = Some (Z.of_nat k + 1))
  /\ strictly_increasing (indices 3 init)
  /\ NoDup (indices 3 init).
Proof. apply (indices_increasing 3). vm_compute. reflexivity. Defined.

Example indices_of_three : indices 3 init = [1; 2; 3].
Proof. reflexivity. Qed.

(** ** The readiness check *)

Ltac run :=
  unfold mbind, M_bind, mret, M_ret, call, panic, when, defer; cbn.

(** What one run of the check returns, by the answer of the network. *)
Lemma readinessCheck_fst (env : Env) (url : string) (w : World) :
  fst (readinessCheck env url w)
  = Ret match http_Get env (requests w) url with
        | GetErr err => (false, Some err)
        | GetOk resp =>
            let leader := Header.Get (Header resp) "X-Consul-KnownLeader" in
            if negb (String.eqb leader "true")
            then (false, Some (Errorf "Consul leader status: %#v" [leader]))
            else if String.eqb (Header.Get (Header resp) "X-Consul-Index") "0"
                 then (false, Some (Errorf "Consul index is 0" []))
                 else (true, nil)
        end.
Proof.
  unfold readinessCheck, http_Get_. run.
  destruct (http_Get env (requests w) url) as [resp | err]; [ | reflexivity].
  run.
  destruct (String.eqb (Header.Get (Header resp) "X-Consul-KnownLeader") "true");
    [ | reflexivity].
  cbn.
  destruct (String.eqb (Header.Get (Header resp) "X-Consul-Index") "0");
    reflexivity.
Qed.

Lemma World_eq (w : World) (o : Z) (r : nat) (t : list Event) :
  offset w = o -> requests w = r -> trace w = t ->
  w = {| offset := o; requests := r; trace := t |}.
Proof. destruct w. cbn. now intros -> -> ->. Qed.

(** The state after one run of the check, by the answer of the network. *)
Lemma readinessCheck_snd (env : Env) (url : string) (w : World) :
  snd (readinessCheck env url w)
  = {| offset := offset w;
       requests := S (requests w);
       trace := trace w ++ HttpGet url ::
                match http_Get env (requests w) url with
                | GetErr _ => []
                | GetOk resp =>
                    let leader := Header.Get (Header resp) "X-Consul-KnownLeader" in
                    BodyClose ::
                    (if String.eqb leader "true" then [] else [Println leader])
                end |}.
Proof.
  unfold readinessCheck, http_Get_. run.
  destruct (http_Get env (requests w) url) as [resp | err]; run.
  - destruct (String.eqb (Header.Get (Header resp) "X-Consul-KnownLeader") "true"); cbn.
    + destruct (String.eqb (Header.Get (Header resp) "X-Consul-Index") "0"); cbn;
        apply World_eq; cbn; try reflexivity; now rewrite <- !app_assoc.
    + apply World_eq; cbn; try reflexivity. now rewrite <- !app_assoc.
  - apply World_eq; reflexivity.
Qed.

(** A header that is not in the map reads as the empty string. *)
Lemma Get_absent (h : Header.t) (key : string) :
  h !! Header.CanonicalMIMEHeaderKey key = None -> Header.Get h key = "".
Proof. intros H. unfold Header.Get. now rewrite H. Qed.

(** C1, as stated, fails: a response that reports a known leader and has no
    index header makes the check return [(true, nil)]. *)
Lemma ready_without_index_header :
  ~ (forall (env : Env) (url : string) (w : World),
       fst (readinessCheck env url w) = Ret (true, nil) ->
       exists resp,
         http_Get env (requests w) url = GetOk resp
         /\ (present resp "X-Consul-KnownLeader"
             /\ Header.Get (Header resp) "X-Consul-KnownLeader" = "true")
         /\ (present resp "X-Consul-Index"
             /\ Header.Get (Header resp) "X-Consul-Index" <> "0")).
Proof.
  intros H.
  destruct (H (answering (GetOk leaderOnly)) "http://127.0.0.1:18801/v1/catalog/nodes" init)
    as (resp & Hget & _ & (v & vs & Hpresent) & _).
  - reflexivity.
  - cbn in Hget. injection Hget as <-. vm_compute in Hpresent. discriminate.
Qed.

(** C1, amended: the check returns [(true, nil)] exactly when the request
    completes without transport error, the leader header reads "true" and
    the index header does not read "0" (a header that is absent reads as the
    empty string); in every other case it returns [(false, err)] with an
    error, and it never panics. *)
Theorem readiness_conditions (env : Env) (url : string) (w : World) :
  (fst (readinessCheck env url w) = Ret (true, nil)
   <-> exists resp,
         http_Get env (requests w) url = GetOk resp
         /\ Header.Get (Header resp) "X-Consul-KnownLeader" = "true"
         /\ Header.Get (Header resp) "X-Consul-Index" <> "0")
  /\ (fst (readinessCheck env url w) = Ret (true, nil)
      \/ exists err, fst (readinessCheck env url w) = Ret (false, Some err)).
Proof.
  rewrite readinessCheck_fst.
  destruct (http_Get env (requests w) url) as [resp | err].
  - cbn zeta.
    destruct (String.eqb_spec (Header.Get (Header resp) "X-Consul-KnownLeader") "true")
      as [Hl | Hl]; cbn [negb].
    + destruct (String.eqb_spec (Header.Get (Header resp) "X-Consul-Index") "0")
        as [Hi | Hi].
      * split; [ | right; eauto].
        split; [discriminate | ].
        intros (r & Hr & _ & Hne). injection Hr as <-. contradiction.
      * split; [ | left; reflexivity].
        split; [ | reflexivity]. intros _. exists resp. auto.
    + split; [ | right; eauto].
      split; [discriminate | ].
      intros (r & Hr & He & _). injection Hr as <-. contradiction.
  - split; [ | right; eauto].
    split; [discriminate | ]. intros (r & Hr & _). discriminate.
Qed.

(** C8: on a response, the check accepts the leader header only when it is
    the string "true" and rejects the index header only when it is the
    string "0"; a header that is absent reads as the empty string, so an
    absent leader header is not ready and an absent index header passes. *)
Theorem header_comparisons (env : Env) (url : string) (w : World) (resp : Response) :
  http_Get env (requests w) url = GetOk resp ->
  let leader := Header.Get (Header resp) "X-Consul-KnownLeader" in
  let index := Header.Get (Header resp) "X-Consul-Index" in
  let result := fst (readinessCheck env url w) in
  (leader <> "true" ->
   result = Ret (false, Some (Errorf "Consul leader status: %#v" [leader])))
  /\ (leader = "true" -> index = "0" ->
      result = Ret (false, Some (Errorf "Consul index is 0" [])))
  /\ (leader = "true" -> index <> "0" -> result = Ret (true, nil))
  /\ (Header resp !! "X-Consul-Knownleader" = None ->
      result = Ret (false, Some (Errorf "Consul leader status: %#v" [""])))
  /\ (leader = "true" -> Header resp !! "X-Consul-Index" = None ->
      result = Ret (true, nil)).
Proof.
  intros Hget leader index result.
  assert (Hres : result
            = Ret (if negb (String.eqb leader "true")
                   then (false, Some (Errorf "Consul leader status: %#v" [leader]))
                   else if String.eqb index "0"
                        then (false, Some (Errorf "Consul index is 0" []))
                        else (true, nil))).
  { unfold result. rewrite readinessCheck_fst, Hget. reflexivity. }
  assert (Hleader : leader <> "true" ->
            result = Ret (false, Some (Errorf "Consul leader status: %#v" [leader]))).
  { intros Hl. rewrite Hres. apply String.eqb_neq in Hl. now rewrite Hl. }
  assert (Hindex : leader = "true" -> index <> "0" -> result = Ret (true, nil)).
  { intros Hl Hi. rewrite Hres. apply String.eqb_eq in Hl. apply String.eqb_neq in Hi.
    now rewrite Hl, Hi. }
  split; [exact Hleader | ].
  split.
  { intros Hl Hi. rewrite Hres. apply String.eqb_eq in Hl, Hi. now rewrite Hl, Hi. }
  split; [exact Hindex | ].
  split.
  - intros Habs.
    assert (E : leader = "") by (apply Get_absent; exact Habs).
    rewrite Hleader by (rewrite E; discriminate). now rewrite E.
  - intros Hl Habs. apply Hindex; [exact Hl | ].
    unfold index. rewrite Get_absent by exact Habs. discriminate.
Qed.

Lemma header_comparisons_witness :
  fst (readinessCheck (answering (GetOk leaderOnly)) "http://127.0.0.1:18801/v1/catalog/nodes" init)
  = Ret (true, nil).
Proof.
  apply (header_comparisons (answering (GetOk leaderOnly))
           "http://127.0.0.1:18801/v1/catalog/nodes" init leaderOnly);
    reflexivity.
Defined.

(** The comparison with "true" is exact: other spellings are not ready. *)
Example leader_True_not_ready :
  fst (readinessCheck
         (answering (GetOk {| Header := {[ "X-Consul-Knownleader" := ["True"];
                                           "X-Consul-Index" := ["5"] ]} |}))
         "http://127.0.0.1:18801/v1/catalog/nodes" init)
  = Ret (false, Some (Errorf "Consul leader status: %#v" ["True"])).
Proof. reflexivity. Qed.

(** Only the string "0" is rejected as an index. *)
Example index_00_ready :
  fst (readinessCheck
         (answering (GetOk {| Header := {[ "X-Consul-Knownleader" := ["true"];
                                           "X-Consul-Index" := ["00"] ]} |}))
         "http://127.0.0.1:18801/v1/catalog/nodes" init)
  = Ret (true, nil).
Proof. reflexivity. Qed.

(** ** Teardown *)

(** C7: [Stop] runs [kill -9] on the handle's pid; when that fails it panics
    with the error; when it succeeds it returns, having removed the
    handle's data directory. *)
Theorem Stop_kills_or_panics (env : Env) (s : TestServer.t) (w : World) :
  let argv := ["kill"; "-9"; Sprintf_d (TestServer.pid s)] in
  (exists rest, trace (snd (Stop env s w)) = trace w ++ Run argv :: rest)
  /\ (forall e, Cmd_Run env argv = Some e ->
      fst (Stop env s w) = Panic (Some e))
  /\ (Cmd_Run env argv = nil ->
      Stop env s w
      = (Ret tt, emit (RemoveAll (TestServer.dataDir s)) (emit (Run argv) w))).
Proof.
  intros argv. unfold Stop, cmd_Run. run. fold argv.
  split; [ | split].
  - exists [RemoveAll (TestServer.dataDir s)].
    destruct (Cmd_Run env argv); cbn; now rewrite <- app_assoc.
  - intros e He. now rewrite He.
  - intros He. now rewrite He.
Qed.

Example Stop_argv :
  trace (snd (Stop happyEnv (TestServer.mk 4242 "/tmp/consul1" (defaultConfig 1)) init))
  = [Run ["kill"; "-9"; "4242"]; RemoveAll "/tmp/consul1"].
Proof. reflexivity. Qed.

(** C10: the removal of the data directory is deferred before the kill is
    attempted, so it is made on every path: also when the kill fails and
    [Stop] panics, the directory is removed, after the kill. *)
Theorem Stop_always_removes (env : Env) (s : TestServer.t) (w : World) :
  let argv := ["kill"; "-9"; Sprintf_d (TestServer.pid s)] in
  trace (snd (Stop env s w))
  = trace w ++ [Run argv; RemoveAll (TestServer.dataDir s)]
  /\ (forall e, Cmd_Run env argv = Some e ->
      Stop env s w
      = (Panic (Some e),
         emit (RemoveAll (TestServer.dataDir s)) (emit (Run argv) w))).
Proof.
  intros argv. unfold Stop, cmd_Run. run. fold argv.
  split.
  - destruct (Cmd_Run env argv); cbn; now rewrite <- app_assoc.
  - intros e He. now rewrite He.
Qed.

Lemma Stop_always_removes_witness :
  Stop killFailsEnv (TestServer.mk 4242 "/tmp/consul1" (defaultConfig 1)) init
  = (Panic (Some (OsError "exit status 1")),
     emit (RemoveAll "/tmp/consul1") (emit (Run ["kill"; "-9"; "4242"]) init)).
Proof.
  apply (Stop_always_removes killFailsEnv
           (TestServer.mk 4242 "/tmp/consul1" (defaultConfig 1)) init).
  reflexivity.
Defined.

(** ** Running a sequence of calls *)

Lemma bind_Ret {A B : Type} (m : M A) (k : A -> M B) (w w' : World) (a : A) :
  m w = (Ret a, w') -> (m ≫= k) w = k a w'.
Proof. intros H. unfold mbind, M_bind. now rewrite H. Qed.

Lemma bind_Panic {A B : Type} (m : M A) (k : A -> M B) (w w' : World) (v : error) :
  m w = (Panic v, w') -> (m ≫= k) w = (Panic v, w').
Proof. intros H. unfold mbind, M_bind. now rewrite H. Qed.

Lemma bind_Goexit {A B : Type} (m : M A) (k : A -> M B) (w w' : World) :
  m w = (Goexit, w') -> (m ≫= k) w = (Goexit, w').
Proof. intros H. unfold mbind, M_bind. now rewrite H. Qed.

(** ** Launch: the binary is missing *)

(** C6: when the agent binary is not found on the search path (the lookup
    fails or yields no path), [NewTestServerConfig] logs, skips the test and
    leaves the goroutine: it does not fail the test, draws no index, and
    makes no other call (no directory, no file, no process). *)
Theorem skipped_when_binary_missing (env : Env) (retries : nat)
  (cb : ServerConfigCallback) (w : World) (path : string) (err : error) :
  exec_LookPath env "consul" = (path, err) ->
  err <> nil \/ path = "" ->
  NewTestServerConfig env retries cb w
  = (Goexit, emit T_SkipNow (emit (T_Log "consul not found on $PATH, skipping") w)).
Proof.
  intros Hlook Hmissing. unfold NewTestServerConfig, LookPath.
  rewrite (bind_Ret _ _ w w (path, err)) by (unfold mret, M_ret; now rewrite Hlook).
  assert (Hcond : is_err err || String.eqb path "" = true).
  { destruct Hmissing as [He | Hp].
    - destruct err; [reflexivity | contradiction].
    - subst path. apply orb_true_r. }
  rewrite Hcond. reflexivity.
Qed.

Lemma skipped_when_binary_missing_witness :
  NewTestServerConfig noBinaryEnv 3 None init
  = (Goexit, emit T_SkipNow (emit (T_Log "consul not found on $PATH, skipping") init)).
Proof.
  apply (skipped_when_binary_missing noBinaryEnv 3 None init ""
           (Some (OsError "executable file not found in $PATH"))).
  - reflexivity.
  - left. discriminate.
Defined.

(** ** Waiting for the leader *)

Lemma readinessCheck_returns (env : Env) (url : string) (w : World) :
  exists r w', readinessCheck env url w = (Ret r, w').
Proof.
  pose proof (readinessCheck_fst env url w) as H.
  destruct (readinessCheck env url w) as [o w']. cbn in H. subst o. eauto.
Qed.

(** With the panicking handler the poller returns or panics, whatever a
    check that always returns answers. *)
Lemma WaitForResult_giveUp (check : M (bool * error)) :
  (forall w, exists r w', check w = (Ret r, w')) ->
  forall (n : nat) (w : World),
  exists w',
    WaitForResult n check giveUp w = (Ret tt, w')
    \/ exists v, WaitForResult n check giveUp w = (Panic v, w').
Proof.
  intros Hcheck n. induction n as [ | n IH]; intros w;
    destruct (Hcheck w) as ([ok err] & w1 & Hrun);
    cbn [WaitForResult]; rewrite (bind_Ret _ _ _ _ _ Hrun);
    destruct ok; try (exists w1; left; reflexivity).
  - exists w1. right. exists err. reflexivity.
  - rewrite (bind_Ret _ _ w1 (emit Sleep w1) tt) by reflexivity. apply IH.
Qed.

Lemma waitForLeader_outcome (env : Env) (retries : nat) (s : TestServer.t) (w : World) :
  exists w',
    waitForLeader env retries s w = (Ret nil, w')
    \/ exists v, waitForLeader env retries s w = (Panic v, w').
Proof.
  unfold waitForLeader.
  destruct (TestServerConfig.Ports (TestServer.config s)) as [ports | ].
  - match goal with |- context [WaitForResult _ ?c _] =>
      destruct (WaitForResult_giveUp c (readinessCheck_returns env _) retries w)
        as (w' & [H | (v & H)])
    end; exists w'.
    + left. now rewrite (bind_Ret _ _ _ _ _ H).
    + right. exists v. now rewrite (bind_Panic _ _ _ _ _ H).
  - exists w. right. eexists. reflexivity.
Qed.

(** [launch], call by call, by the answers of the environment. *)
Lemma launch_steps (env : Env) (retries : nat) (cb : ServerConfigCallback)
  (dataDir configFile : string) (w : World) :
  let config := configured cb dataDir (GoInt.int (GoInt.uint64 (offset w + 1))) in
  let argv := ["consul"; "agent"; "-config-file"; configFile] in
  let w1 := {| offset := GoInt.uint64 (offset w + 1);
               requests := requests w; trace := trace w |} in
  let w2 := emit (Write configFile (Marshal config)) w1 in
  let w3 := emit (Start argv) (emit (Close configFile) w2) in
  launch env retries cb dataDir configFile w
  = match File_Write env configFile (Marshal config) with
    | Some e => (Goexit, emit (T_Fatalf "err: %s" (Some e)) w2)
    | None =>
        match Cmd_Start env argv with
        | (pid, Some e) => (Goexit, emit (T_Fatalf "err: %s" (Some e)) w3)
        | (pid, None) =>
            let server := {| TestServer.config := config;
                             TestServer.pid := pid;
                             TestServer.dataDir := dataDir |} in
            match waitForLeader env retries server w3 with
            | (Ret None, w4) => (Ret server, w4)
            | (Ret (Some e), w4) => (Goexit, emit (T_Fatalf "err: %s" (Some e)) w4)
            | (Panic v, w4) => (Panic v, w4)
            | (Goexit, w4) => (Goexit, w4)
            end
        end
    end.
Proof.
  intros config argv w1 w2 w3.
  unfold launch, defaultServerConfig.
  rewrite (bind_Ret _ _ _ _ _ (bind_Ret nextIndex _ w _ _ eq_refl)).
  unfold mret at 1, M_ret at 1. cbn beta zeta.
  fold (configured cb dataDir (GoInt.int (GoInt.uint64 (offset w + 1)))).
  fold config. fold w1. fold argv.
  unfold json_Marshal. cbn [is_err nil when].
  rewrite (bind_Ret _ _ w1 w1 tt) by reflexivity.
  rewrite (bind_Ret _ _ w1 w2 (File_Write env configFile (Marshal config)))
    by reflexivity.
  destruct (File_Write env configFile (Marshal config)) as [e | ]; [reflexivity | ].
  cbn [is_err when].
  rewrite (bind_Ret _ _ w2 w2 tt) by reflexivity.
  rewrite (bind_Ret _ _ w2 (emit (Close configFile) w2) tt) by reflexivity.
  rewrite (bind_Ret _ _ (emit (Close configFile) w2) w3 (Cmd_Start env argv))
    by reflexivity.
  destruct (Cmd_Start env argv) as [pid [e | ]]; [reflexivity | ].
  cbn [is_err when].
  rewrite (bind_Ret _ _ w3 w3 tt) by reflexivity.
  cbn zeta.
  destruct (waitForLeader env retries _ w3) as [[[e | ] | v | ] w4] eqn:Hwait.
  - now rewrite (bind_Ret _ _ _ _ _ Hwait).
  - now rewrite (bind_Ret _ _ _ _ _ Hwait).
  - now rewrite (bind_Panic _ _ _ _ _ Hwait).
  - now rewrite (bind_Goexit _ _ _ _ Hwait).
Qed.

Lemma readinessCheck_checked (env : Env) (url : string) (w : World) :
  exists w',
    readinessCheck env url w = (checked env url (requests w), w')
    /\ requests w' = S (requests w).
Proof.
  pose proof (readinessCheck_fst env url w) as Hfst.
  pose proof (readinessCheck_snd env url w) as Hsnd.
  unfold checked. rewrite readinessCheck_fst. cbn [requests].
  destruct (readinessCheck env url w) as [o w']. cbn in Hfst, Hsnd.
  exists w'. split; [now rewrite Hfst | now rewrite Hsnd].
Qed.

Lemma checked_returns (env : Env) (url : string) (n : nat) :
  exists ok err, checked env url n = Ret (ok, err).
Proof.
  unfold checked. rewrite readinessCheck_fst.
  match goal with |- context [Ret ?r] => destruct r as [ok err] end.
  eauto.
Qed.

(** The poll of [url] with the panicking handler: it returns at the first
    check that succeeds, and panics with the error of the last check when
    none of its [S n] checks does. *)
Lemma WaitForResult_poll (env : Env) (url : string) (n : nat) :
  forall w,
    (exists k w',
        (k <= n)%nat
        /\ succeeds env url (requests w + k) = true
        /\ WaitForResult n (readinessCheck env url) giveUp w = (Ret tt, w'))
    \/ ((forall k, (k <= n)%nat -> succeeds env url (requests w + k) = false)
        /\ exists e w',
             WaitForResult n (readinessCheck env url) giveUp w = (Panic e, w')
             /\ checked env url (requests w + n) = Ret (false, e)).
Proof.
  induction n as [ | n IH]; intros w;
    destruct (readinessCheck_checked env url w) as (w1 & Hrun & Hreq);
    destruct (checked_returns env url (requests w)) as (ok & err & Hck);
    rewrite Hck in Hrun;
    cbn [WaitForResult]; rewrite (bind_Ret _ _ _ _ _ Hrun);
    assert (Hs : succeeds env url (requests w + 0) = ok)
      by (unfold succeeds; now rewrite Nat.add_0_r, Hck);
    destruct ok.
  - left. exists O, w1. auto.
  - right. split.
    + intros k Hk. replace k with O by lia. exact Hs.
    + exists err, w1. split; [reflexivity | now rewrite Nat.add_0_r].
  - left. exists O, w1. split; [lia | auto].
  - rewrite (bind_Ret _ _ w1 (emit Sleep w1) tt) by reflexivity.
    destruct (IH (emit Sleep w1)) as [(k & w' & Hk & Hok & Hw) | (Hnone & e & w' & Hw & He)];
      cbn [requests emit] in *; rewrite Hreq in *.
    + left. exists (S k), w'. split; [lia | ]. split; [ | exact Hw].
      now replace (requests w + S k)%nat with (S (requests w) + k)%nat by lia.
    + right. split.
      * intros [ | k] Hk; [exact Hs | ].
        replace (requests w + S k)%nat with (S (requests w) + k)%nat by lia.
        apply Hnone. lia.
      * exists e, w'. split; [exact Hw | ].
        now replace (requests w + S n)%nat with (S (requests w) + n)%nat by lia.
Qed.

(** C9: [waitForLeader] returns [nil] whenever it returns: it ends either by
    returning [nil] or in a panic (of the give-up handler, or of the nil
    [Ports] pointer), never with an error value. The give-up handler
    panics with the error it is handed: when none of the checks of the
    poll succeeds, [waitForLeader] panics with the error of the last check;
    it returns only when a check succeeded. So the part of
    [NewTestServerConfig] that runs once the configuration file exists
    leaves through [t.Fatalf] only when the write or the start of the
    process failed, never through the branch after [waitForLeader], and it
    returns a handle only when a check succeeded. *)
Theorem waitForLeader_never_errs (env : Env) (retries : nat) :
  (forall (s : TestServer.t) (w : World),
     exists w',
       waitForLeader env retries s w = (Ret nil, w')
       \/ exists v, waitForLeader env retries s w = (Panic v, w'))
  /\ (forall (cb : ServerConfigCallback) (dataDir configFile : string) (w : World),
        fst (launch env retries cb dataDir configFile w) = Goexit ->
        let config := configured cb dataDir (GoInt.int (GoInt.uint64 (offset w + 1))) in
        File_Write env configFile (Marshal config) <> nil
        \/ snd (Cmd_Start env ["consul"; "agent"; "-config-file"; configFile]) <> nil)
  /\ (forall (err : error) (w : World), giveUp err w = (Panic err, w))
  /\ (forall (s : TestServer.t) (w : World) (ports : TestPortConfig.t),
        TestServerConfig.Ports (TestServer.config s) = Some ports ->
        let url := statusURL (TestPortConfig.HTTP ports) in
        (forall k, (k <= retries)%nat -> succeeds env url (requests w + k) = false) ->
        exists e w',
          waitForLeader env retries s w = (Panic e, w')
          /\ checked env url (requests w + retries) = Ret (false, e))
  /\ (forall (s : TestServer.t) (w w' : World) (r : error),
        waitForLeader env retries s w = (Ret r, w') ->
        r = nil
        /\ exists ports k,
             TestServerConfig.Ports (TestServer.config s) = Some ports
             /\ (k <= retries)%nat
             /\ succeeds env (statusURL (TestPortConfig.HTTP ports)) (requests w + k) = true)
  /\ (forall (cb : ServerConfigCallback) (dataDir configFile : string)
             (w w' : World) (server : TestServer.t),
        launch env retries cb dataDir configFile w = (Ret server, w') ->
        exists ports k,
          TestServerConfig.Ports (TestServer.config server) = Some ports
          /\ (k <= retries)%nat
          /\ succeeds env (statusURL (TestPortConfig.HTTP ports)) (requests w + k) = true).
Proof.
  assert (Hpanics : forall (s : TestServer.t) (w : World) (ports : TestPortConfig.t),
            TestServerConfig.Ports (TestServer.config s) = Some ports ->
            (forall k, (k <= retries)%nat ->
               succeeds env (statusURL (TestPortConfig.HTTP ports)) (requests w + k) = false) ->
            exists e w',
              waitForLeader env retries s w = (Panic e, w')
              /\ checked env (statusURL (TestPortConfig.HTTP ports)) (requests w + retries)
                 = Ret (false, e)).
  { intros s w ports Hports Hnone. unfold waitForLeader. rewrite Hports.
    fold (statusURL (TestPortConfig.HTTP ports)).
    destruct (WaitForResult_poll env (statusURL (TestPortConfig.HTTP ports)) retries w)
      as [(k & w' & Hk & Hok & _) | (_ & e & w' & Hw & He)].
    - rewrite Hnone in Hok by exact Hk. discriminate.
    - exists e, w'. split; [ | exact He]. now rewrite (bind_Panic _ _ _ _ _ Hw). }
  assert (Hreturns : forall (s : TestServer.t) (w w' : World) (r : error),
            waitForLeader env retries s w = (Ret r, w') ->
            r = nil
            /\ exists ports k,
                 TestServerConfig.Ports (TestServer.config s) = Some ports
                 /\ (k <= retries)%nat
                 /\ succeeds env (statusURL (TestPortConfig.HTTP ports)) (requests w + k)
                    = true).
  { intros s w w' r. unfold waitForLeader.
    destruct (TestServerConfig.Ports (TestServer.config s)) as [ports | ];
      [ | discriminate].
    fold (statusURL (TestPortConfig.HTTP ports)).
    destruct (WaitForResult_poll env (statusURL (TestPortConfig.HTTP ports)) retries w)
      as [(k & w1 & Hk & Hok & Hw) | (_ & e & w1 & Hw & _)].
    - rewrite (bind_Ret _ _ _ _ _ Hw). intros H. injection H as <- _.
      split; [reflexivity | ]. exists ports, k. auto.
    - rewrite (bind_Panic _ _ _ _ _ Hw). discriminate. }
  split; [apply waitForLeader_outcome | ].
  split; [ | split; [reflexivity | split; [exact Hpanics | split; [exact Hreturns | ]]]].
  - intros cb dataDir configFile w Hexit config.
    rewrite launch_steps in Hexit. cbn zeta in Hexit. fold config in Hexit.
    destruct (File_Write env configFile (Marshal config)) as [e | ]; [left; discriminate | ].
    right.
    destruct (Cmd_Start env ["consul"; "agent"; "-config-file"; configFile])
      as [pid [e | ]]; [discriminate | ].
    exfalso.
    match type of Hexit with context [waitForLeader env retries ?s ?w0] =>
      destruct (waitForLeader_outcome env retries s w0) as (w4 & [H | (v & H)])
    end; rewrite H in Hexit; discriminate.
  - intros cb dataDir configFile w w' server. rewrite launch_steps. cbn zeta.
    destruct (File_Write env configFile _) as [e | ]; [discriminate | ].
    destruct (Cmd_Start env _) as [pid [e | ]]; [discriminate | ].
    match goal with |- context [waitForLeader env retries ?s ?w0] =>
      destruct (waitForLeader env retries s w0) as [[[e | ] | v | ] w4] eqn:Hwait
    end; try discriminate.
    intros H. injection H as <- _.
    destruct (Hreturns _ _ _ _ Hwait) as (_ & ports & k & Hp & Hk & Hok).
    exists ports, k. auto.
Qed.

Lemma waitForLeader_never_errs_witness :
  exists e w',
    waitForLeader (answering (GetErr (OsError "connection refused"))) 2
      (TestServer.mk 4242 "/tmp/consul1" (defaultConfig 1)) init
    = (Panic e, w')
    /\ checked (answering (GetErr (OsError "connection refused")))
         (statusURL 18801) (requests init + 2)
       = Ret (false, e).
Proof.
  destruct (waitForLeader_never_errs (answering (GetErr (OsError "connection refused"))) 2)
    as (_ & _ & _ & H & _).
  apply (H (TestServer.mk 4242 "/tmp/consul1" (defaultConfig 1)) init (defaultPorts 1)).
  - reflexivity.
  - intros k Hk. reflexivity.
Defined.

(** When the agent never reports a leader the launch does not return: it
    panics with the error of the last check. *)
Example launch_panics_without_leader :
  fst (NewTestServerConfig
         (answering (GetOk {| Header := {[ "X-Consul-Index" := ["5"] ]} |})) 3 None init)
  = Panic (Some (Errorf "Consul leader status: %#v" [""])).
Proof. reflexivity. Qed.

(** ** Launch: the callback and the serialized document *)

Lemma extends_by_refl (P : Event -> Prop) (w : World) : extends_by P w w.
Proof. exists []. rewrite app_nil_r. auto. Qed.

Lemma extends_by_trans (P : Event -> Prop) (w1 w2 w3 : World) :
  extends_by P w1 w2 -> extends_by P w2 w3 -> extends_by P w1 w3.
Proof.
  intros (e1 & H1 & F1 & O1) (e2 & H2 & F2 & O2). exists (e1 ++ e2).
  rewrite H2, H1, app_assoc, O2, O1. auto using Forall_app_2.
Qed.

Lemma extends_by_emit (P : Event -> Prop) (w : World) (e : Event) :
  P e -> extends_by P w (emit e w).
Proof. intros He. exists [e]. cbn. auto. Qed.

Lemma readinessCheck_extends (env : Env) (url : string) (w : World) :
  extends_by polling w (snd (readinessCheck env url w)).
Proof.
  unfold readinessCheck, http_Get_. run.
  destruct (http_Get env (requests w) url) as [resp | err]; run.
  - destruct (String.eqb (Header.Get (Header resp) "X-Consul-KnownLeader") "true"); cbn.
    + destruct (String.eqb (Header.Get (Header resp) "X-Consul-Index") "0"); cbn;
        (exists [HttpGet url; BodyClose]; cbn; rewrite <- app_assoc;
         repeat split; repeat constructor).
    + exists [HttpGet url; BodyClose;
              Println (Header.Get (Header resp) "X-Consul-KnownLeader")].
      cbn. rewrite <- !app_assoc. repeat split; repeat constructor.
  - exists [HttpGet url]. repeat split; repeat constructor.
Qed.

Lemma WaitForResult_extends (check : M (bool * error)) :
  (forall w, exists r w', check w = (Ret r, w') /\ extends_by polling w w') ->
  forall (n : nat) (w : World),
    extends_by polling w (snd (WaitForResult n check giveUp w)).
Proof.
  intros Hcheck n. induction n as [ | n IH]; intros w;
    destruct (Hcheck w) as ([ok err] & w1 & Hrun & Hext);
    cbn [WaitForResult]; rewrite (bind_Ret _ _ _ _ _ Hrun);
    destruct ok; try exact Hext.
  rewrite (bind_Ret _ _ w1 (emit Sleep w1) tt) by reflexivity.
  eapply extends_by_trans; [exact Hext | ].
  eapply extends_by_trans; [ | apply IH].
  now apply extends_by_emit.
Qed.

Lemma waitForLeader_extends (env : Env) (retries : nat) (s : TestServer.t) (w : World) :
  extends_by polling w (snd (waitForLeader env retries s w)).
Proof.
  unfold waitForLeader.
  destruct (TestServerConfig.Ports (TestServer.config s)) as [ports | ];
    [ | apply extends_by_refl].
  match goal with |- context [WaitForResult _ ?c _] =>
    assert (Hc : forall w, exists r w', c w = (Ret r, w') /\ extends_by polling w w')
  end.
  { intros w0. destruct (readinessCheck_returns env
      ("http://127.0.0.1:" ++ Sprintf_d (TestPortConfig.HTTP ports) ++ "/v1/catalog/nodes")%string w0)
      as (r & w' & H).
    exists r, w'. split; [exact H | ].
    pose proof (readinessCheck_extends env
      ("http://127.0.0.1:" ++ Sprintf_d (TestPortConfig.HTTP ports) ++ "/v1/catalog/nodes")%string w0) as E.
    now rewrite H in E. }
  pose proof (WaitForResult_extends _ Hc retries w) as E.
  destruct (WaitForResult retries _ giveUp w) as [[[] | v | ] w'] eqn:Hrun; cbn in E.
  - now rewrite (bind_Ret _ _ _ _ _ Hrun).
  - now rewrite (bind_Panic _ _ _ _ _ Hrun).
  - now rewrite (bind_Goexit _ _ _ _ Hrun).
Qed.

Lemma polling_not_Write (e : Event) : polling e -> not_Write e.
Proof. destruct e; cbn; auto. Qed.

(** [launch] writes the serialized configuration first, and writes nothing
    else. *)
Lemma launch_trace (env : Env) (retries : nat) (cb : ServerConfigCallback)
  (dataDir configFile : string) (w : World) :
  let config := configured cb dataDir (GoInt.int (GoInt.uint64 (offset w + 1))) in
  exists rest,
    trace (snd (launch env retries cb dataDir configFile w))
    = trace w ++ Write configFile (Marshal config) :: rest
    /\ Forall not_Write rest.
Proof.
  intros config. rewrite launch_steps. cbn zeta. fold config.
  destruct (File_Write env configFile (Marshal config)) as [e | ].
  { eexists. cbn. rewrite <- app_assoc. split; [reflexivity | ].
    repeat constructor. }
  destruct (Cmd_Start env ["consul"; "agent"; "-config-file"; configFile])
    as [pid [e | ]].
  { eexists. cbn. rewrite <- !app_assoc. split; [reflexivity | ].
    repeat constructor. }
  match goal with |- context [waitForLeader env retries ?s ?w0] =>
    destruct (waitForLeader_extends env retries s w0) as (evs & Htr & Hevs & _);
    destruct (waitForLeader env retries s w0) as [[[e | ] | v | ] w4]
  end; cbn in Htr |- *; rewrite Htr, <- !app_assoc; cbn;
    eexists; (split; [reflexivity | ]);
    repeat (apply Forall_cons; split; [exact I | ]);
    try (apply Forall_app_2; [ | repeat constructor]);
    (eapply Forall_impl; [exact Hevs | exact polling_not_Write]).
Qed.

(** The handle [launch] returns holds the configuration it serialized. *)
Lemma launch_handle (env : Env) (retries : nat) (cb : ServerConfigCallback)
  (dataDir configFile : string) (w w' : World) (server : TestServer.t) :
  launch env retries cb dataDir configFile w = (Ret server, w') ->
  TestServer.config server
  = configured cb dataDir (GoInt.int (GoInt.uint64 (offset w + 1))).
Proof.
  rewrite launch_steps. cbn zeta.
  destruct (File_Write env configFile _) as [e | ]; [discriminate | ].
  destruct (Cmd_Start env _) as [pid [e | ]]; [discriminate | ].
  destruct (waitForLeader env retries _ _) as [[[e | ] | v | ] w4];
    try discriminate.
  intros H. injection H as <- _. reflexivity.
Qed.

(** A Go string that is UTF-8 is written as it is. *)
Lemma coerce_valid (s : string) :
  forall keep, Utf8.valid keep s = true -> Utf8.coerce keep s = s.
Proof.
  induction s as [ | c rest IH]; intros keep H; [reflexivity | ].
  cbn [Utf8.valid Utf8.coerce] in H |- *.
  destruct keep as [ | k].
  - destruct (Utf8.rune_size c rest) as [ | k]; [discriminate | ].
    f_equal. now apply IH.
  - f_equal. now apply IH.
Qed.

(** What is kept and what is replaced: text in ASCII, in two, three and
    four bytes, and U+FFFD itself are kept; a stray byte, a cut encoding,
    an overlong form, a surrogate and a code point above U+10FFFF are
    replaced byte by byte. *)
Example coerce_cases :
  Utf8.coerce 0 "/tmp/consul1" = "/tmp/consul1"
  /\ Utf8.coerce 0 (bytes [195; 169]%N) = bytes [195; 169]%N
  /\ Utf8.coerce 0 (bytes [226; 130; 172]%N) = bytes [226; 130; 172]%N
  /\ Utf8.coerce 0 (bytes [240; 159; 152; 128]%N) = bytes [240; 159; 152; 128]%N
  /\ Utf8.coerce 0 (bytes [239; 191; 189]%N) = bytes [239; 191; 189]%N
  /\ Utf8.coerce 0 (bytes [255]%N) = bytes [239; 191; 189]%N
  /\ Utf8.coerce 0 (bytes [97; 128; 98]%N) = bytes [97; 239; 191; 189; 98]%N
  /\ Utf8.coerce 0 (bytes [226; 130]%N) = bytes [239; 191; 189; 239; 191; 189]%N
  /\ Utf8.coerce 0 (bytes [192; 128]%N) = bytes [239; 191; 189; 239; 191; 189]%N
  /\ Utf8.coerce 0 (bytes [237; 160; 128]%N)
     = bytes [239; 191; 189; 239; 191; 189; 239; 191; 189]%N
  /\ Utf8.coerce 0 (bytes [244; 144; 128; 128]%N)
     = bytes [239; 191; 189; 239; 191; 189; 239; 191; 189; 239; 191; 189]%N.
Proof. repeat split; reflexivity. Qed.

Lemma json_string_valid (s : string) :
  Utf8.ValidString s = true -> json_string s = JString s.
Proof. intros H. unfold json_string. f_equal. now apply coerce_valid. Qed.

(** The data directory of a configuration is the [data_dir] member of its
    document; the empty string, the field's zero value, is left out. *)
Lemma member_data_dir (c : TestServerConfig.t) :
  member "data_dir" (Marshal c)
  = if String.eqb "" (TestServerConfig.DataDir c) then None
    else Some (json_string (TestServerConfig.DataDir c)).
Proof.
  destruct c as [bootstrap server dataDir logLevel addresses ports].
  unfold Marshal, member, bool_field, string_field, omitempty, ptr_field. cbn.
  destruct bootstrap, server, dataDir, logLevel, addresses, ports; reflexivity.
Qed.

(** Up to [launch], when the binary is found and the directory and the
    file are created. *)
Lemma NewTestServerConfig_setup (env : Env) (retries : nat)
  (cb : ServerConfigCallback) (w : World) (path dataDir configFile : string) :
  exec_LookPath env "consul" = (path, nil) -> path <> "" ->
  ioutil_TempDir env "" "consul" = (dataDir, nil) ->
  ioutil_TempFile env "" "consul" = (configFile, nil) ->
  NewTestServerConfig env retries cb w
  = defer (Remove configFile) (launch env retries cb dataDir configFile)
      (emit (TempFile "" "consul") (emit (TempDir "" "consul") w)).
Proof.
  intros Hlook Hpath Hdir Hfile.
  unfold NewTestServerConfig, LookPath, ioutil_TempDir_, ioutil_TempFile_.
  rewrite (bind_Ret _ _ w w (path, nil)) by (unfold mret, M_ret; now rewrite Hlook).
  apply String.eqb_neq in Hpath. rewrite Hpath. cbn [is_err nil orb when].
  rewrite (bind_Ret _ _ w w tt) by reflexivity.
  rewrite (bind_Ret _ _ w (emit (TempDir "" "consul") w) (dataDir, nil))
    by (unfold mbind, M_bind, call, mret, M_ret; now rewrite Hdir).
  cbn [is_err nil when].
  rewrite (bind_Ret _ _ _ (emit (TempDir "" "consul") w) tt) by reflexivity.
  rewrite (bind_Ret _ _ _ (emit (TempFile "" "consul") (emit (TempDir "" "consul") w))
             (configFile, nil))
    by (unfold mbind, M_bind, call, mret, M_ret; now rewrite Hfile).
  cbn [is_err nil when].
  now rewrite (bind_Ret _ _ _ (emit (TempFile "" "consul") (emit (TempDir "" "consul") w)) tt)
    by reflexivity.
Qed.

(** C5, as stated, fails: the data directory a callback sets does not
    always appear as it is in the document. The empty string is written by
    leaving the member out, and a byte that is not UTF-8 is written as
    U+FFFD. *)
Lemma data_dir_not_always_verbatim :
  ~ (forall doc,
       In (Write "/tmp/consul2" doc)
          (trace (snd (NewTestServerConfig happyEnv 3 (setDataDir "") init))) ->
       member "data_dir" doc = Some (JString ""))
  /\ ~ (forall doc,
          In (Write "/tmp/consul2" doc)
             (trace (snd (NewTestServerConfig happyEnv 3 (setDataDir notUtf8) init))) ->
          member "data_dir" doc = Some (JString notUtf8)).
Proof.
  split; intros H.
  - specialize (H (Marshal (configured (setDataDir "") "/tmp/consul1" 1))).
    assert (E : member "data_dir" (Marshal (configured (setDataDir "") "/tmp/consul1" 1))
                = None) by reflexivity.
    rewrite E in H. discriminate H. vm_compute. auto.
  - specialize (H (Marshal (configured (setDataDir notUtf8) "/tmp/consul1" 1))).
    assert (E : member "data_dir" (Marshal (configured (setDataDir notUtf8) "/tmp/consul1" 1))
                = Some (JString Utf8.RuneError)) by reflexivity.
    rewrite E in H.
    assert (W : Some (JString Utf8.RuneError) = Some (JString notUtf8)).
    { apply H. vm_compute. auto. }
    vm_compute in W. discriminate W.
Qed.

(** C5, amended: the callback runs on the defaults, after the data
    directory is set in them, and its result is what is serialized: once
    the directory and the file exist, the one document
    [NewTestServerConfig] writes is that of the callback's result, which is
    also the configuration of the handle it returns. So a callback that
    sets the data directory to a string that is not empty and is UTF-8
    makes that exact string the [data_dir] member of the document, in place
    of the directory created; the empty string is written by leaving the
    member out, and a byte that is not UTF-8 is written as U+FFFD. *)
Theorem callback_overrides_defaults (env : Env) (retries : nat)
  (cb : ServerConfigCallback) (w : World) (path dataDir configFile : string) :
  exec_LookPath env "consul" = (path, nil) -> path <> "" ->
  ioutil_TempDir env "" "consul" = (dataDir, nil) ->
  ioutil_TempFile env "" "consul" = (configFile, nil) ->
  let idx := GoInt.int (GoInt.uint64 (offset w + 1)) in
  let defaults := TestServerConfig.set_DataDir dataDir (defaultConfig idx) in
  let config := match cb with Some f => f defaults | None => defaults end in
  (exists rest,
     trace (snd (NewTestServerConfig env retries cb w))
     = trace w ++ [TempDir "" "consul"; TempFile "" "consul";
                   Write configFile (Marshal config)] ++ rest
     /\ Forall not_Write rest)
  /\ (forall server w',
        NewTestServerConfig env retries cb w = (Ret server, w') ->
        TestServer.config server = config)
  /\ (forall d, TestServerConfig.DataDir config = d ->
        (d <> "" -> Utf8.ValidString d = true ->
         member "data_dir" (Marshal config) = Some (JString d))
        /\ (d <> "" ->
            member "data_dir" (Marshal config) = Some (JString (Utf8.coerce 0 d)))
        /\ (d = "" -> member "data_dir" (Marshal config) = None)).
Proof.
  intros Hlook Hpath Hdir Hfile idx defaults config.
  rewrite (NewTestServerConfig_setup env retries cb w path dataDir configFile)
    by assumption.
  unfold defer.
  set (w2 := emit (TempFile "" "consul") (emit (TempDir "" "consul") w)).
  split; [ | split].
  - destruct (launch_trace env retries cb dataDir configFile w2)
      as (rest & Htr & Hrest).
    destruct (launch env retries cb dataDir configFile w2) as [o w'].
    exists (rest ++ [Remove configFile]). cbn in Htr |- *.
    rewrite Htr, <- !app_assoc. split; [reflexivity | ].
    apply Forall_app_2; [exact Hrest | repeat constructor].
  - intros server w' H.
    destruct (launch env retries cb dataDir configFile w2) as [o w3] eqn:Hl.
    injection H as -> _.
    exact (launch_handle _ _ _ _ _ _ _ _ Hl).
  - intros d <-. rewrite member_data_dir.
    split; [ | split].
    + intros Hne Hvalid. apply String.eqb_neq in Hne.
      rewrite String.eqb_sym, Hne. now rewrite json_string_valid.
    + intros Hne. apply String.eqb_neq in Hne.
      now rewrite String.eqb_sym, Hne.
    + intros ->. reflexivity.
Qed.

Lemma callback_overrides_defaults_witness :
  member "data_dir"
    (Marshal (TestServerConfig.set_DataDir "/srv/consul"
                (TestServerConfig.set_DataDir "/tmp/consul1" (defaultConfig 1))))
  = Some (JString "/srv/consul").
Proof.
  assert (H := callback_overrides_defaults happyEnv 3 (setDataDir "/srv/consul") init
                 "/usr/bin/consul" "/tmp/consul1" "/tmp/consul2"
                 eq_refl ltac:(discriminate) eq_refl eq_refl).
  cbv zeta in H. destruct H as (_ & _ & H).
  destruct (H "/srv/consul" eq_refl) as (H1 & _).
  apply H1; [discriminate | reflexivity].
Defined.

Example override_written :
  trace (snd (NewTestServerConfig happyEnv 3 (setDataDir "/srv/consul") init))
  = [TempDir "" "consul"; TempFile "" "consul";
     Write "/tmp/consul2"
       (JObject
          [("bootstrap", JBool true); ("server", JBool true);
           ("data_dir", JString "/srv/consul"); ("log_level", JString "debug");
           ("ports",
            JObject
              [("dns", JNumber 19001); ("http", JNumber 18801);
               ("rpc", JNumber 18601); ("serf_lan", JNumber 18201);
               ("serf_wan", JNumber 18401); ("server", JNumber 18001)])]);
     Close "/tmp/consul2";
     Start ["consul"; "agent"; "-config-file"; "/tmp/consul2"];
     HttpGet "http://127.0.0.1:18801/v1/catalog/nodes"; Sleep;
     HttpGet "http://127.0.0.1:18801/v1/catalog/nodes"; BodyClose;
     Remove "/tmp/consul2"].
Proof. reflexivity. Qed.

(** ** The launch, end to end *)

(** The agent answers the second request: the handle is returned. *)
Example launch_succeeds :
  fst (NewTestServerConfig happyEnv 3 None init)
  = Ret {| TestServer.pid := 4242;
           TestServer.dataDir := "/tmp/consul1";
           TestServer.config :=
             TestServerConfig.set_DataDir "/tmp/consul1" (defaultConfig 1) |}.
Proof. reflexivity. Qed.

(** The poller gives up after its one attempt: the launch panics with the
    error of that attempt, and the configuration file is still removed. *)
Example launch_gives_up :
  NewTestServerConfig happyEnv 0 None init
  = (Panic (Some (OsError "connection refused")),
     {| offset := 1; requests := 1;
        trace := [TempDir "" "consul"; TempFile "" "consul";
                  Write "/tmp/consul2"
                    (Marshal (TestServerConfig.set_DataDir "/tmp/consul1" (defaultConfig 1)));
                  Close "/tmp/consul2";
                  Start ["consul"; "agent"; "-config-file"; "/tmp/consul2"];
                  HttpGet "http://127.0.0.1:18801/v1/catalog/nodes";
                  Remove "/tmp/consul2"] |}).
Proof. reflexivity. Qed.

(** ** The launch, call by call *)

Lemma happy_created : created happyEnv "/tmp/consul1" "/tmp/consul2".
Proof.
  split; [ | split; reflexivity].
  exists "/usr/bin/consul". split; [reflexivity | discriminate].
Qed.

(** [NewTestServerConfig] up to [launch], by the answers of the
    environment. *)
Lemma NewTestServerConfig_steps (env : Env) (retries : nat)
  (cb : ServerConfigCallback) (w : World) :
  NewTestServerConfig env retries cb w
  = let '(path, e0) := exec_LookPath env "consul" in
    if is_err e0 || String.eqb path ""
    then (Goexit, emit T_SkipNow (emit (T_Log "consul not found on $PATH, skipping") w))
    else
      let w1 := emit (TempDir "" "consul") w in
      match ioutil_TempDir env "" "consul" with
      | (dataDir, Some e) => (Goexit, emit (T_Fatalf "err: %s" (Some e)) w1)
      | (dataDir, None) =>
          let w2 := emit (TempFile "" "consul") w1 in
          match ioutil_TempFile env "" "consul" with
          | (configFile, Some e) => (Goexit, emit (T_Fatalf "err: %s" (Some e)) w2)
          | (configFile, None) =>
              defer (Remove configFile) (launch env retries cb dataDir configFile) w2
          end
      end.
Proof.
  unfold NewTestServerConfig, LookPath, ioutil_TempDir_, ioutil_TempFile_.
  destruct (exec_LookPath env "consul") as [path e0] eqn:Hlook.
  rewrite (bind_Ret _ _ w w (path, e0)) by reflexivity.
  destruct (is_err e0 || String.eqb path ""); [reflexivity | ].
  cbn [when]. rewrite (bind_Ret _ _ w w tt) by reflexivity.
  destruct (ioutil_TempDir env "" "consul") as [dataDir e1] eqn:Hdir.
  rewrite (bind_Ret _ _ w (emit (TempDir "" "consul") w) (dataDir, e1))
    by reflexivity.
  destruct e1 as [e | ]; [reflexivity | ].
  cbn [is_err when].
  rewrite (bind_Ret _ _ _ (emit (TempDir "" "consul") w) tt) by reflexivity.
  destruct (ioutil_TempFile env "" "consul") as [configFile e2] eqn:Hfile.
  rewrite (bind_Ret _ _ _ (emit (TempFile "" "consul") (emit (TempDir "" "consul") w))
             (configFile, e2))
    by reflexivity.
  destruct e2 as [e | ]; [reflexivity | ].
  cbn [is_err when].
  now rewrite (bind_Ret _ _ _ (emit (TempFile "" "consul") (emit (TempDir "" "consul") w)) tt)
    by reflexivity.
Qed.

Lemma NewTestServerConfig_created (env : Env) (retries : nat)
  (cb : ServerConfigCallback) (w : World) (dataDir configFile : string) :
  created env dataDir configFile ->
  NewTestServerConfig env retries cb w
  = defer (Remove configFile) (launch env retries cb dataDir configFile)
      (emit (TempFile "" "consul") (emit (TempDir "" "consul") w)).
Proof.
  intros ((path & Hlook & Hpath) & Hdir & Hfile).
  exact (NewTestServerConfig_setup env retries cb w path dataDir configFile
           Hlook Hpath Hdir Hfile).
Qed.

Lemma polling_launching (e : Event) : polling e -> launching e.
Proof. destruct e; cbn; auto. Qed.

(** What [launch] leaves behind, however it ends: calls of its own kinds,
    and the counter one step on. *)
Lemma launch_world (env : Env) (retries : nat) (cb : ServerConfigCallback)
  (dataDir configFile : string) (w : World) :
  exists evs,
    trace (snd (launch env retries cb dataDir configFile w)) = trace w ++ evs
    /\ Forall launching evs
    /\ offset (snd (launch env retries cb dataDir configFile w))
       = GoInt.uint64 (offset w + 1).
Proof.
  rewrite launch_steps. cbn zeta.
  destruct (File_Write env configFile _) as [e | ].
  { eexists. cbn. rewrite <- app_assoc. repeat split. repeat constructor. }
  destruct (Cmd_Start env _) as [pid [e | ]].
  { eexists. cbn. rewrite <- !app_assoc. repeat split. repeat constructor. }
  match goal with |- context [waitForLeader env retries ?s ?w0] =>
    destruct (waitForLeader_extends env retries s w0) as (evs & Htr & Hevs & Hoff);
    destruct (waitForLeader env retries s w0) as [[[e | ] | v | ] w4]
  end; cbn in Htr, Hoff |- *; rewrite Htr, Hoff, <- !app_assoc; cbn;
    eexists; (split; [reflexivity | ]); (split; [ | reflexivity]);
    repeat (apply Forall_cons; split; [exact I | ]);
    try (apply Forall_app_2; [ | repeat constructor]);
    (eapply Forall_impl; [exact Hevs | exact polling_launching]).
Qed.

Lemma launching_not_Remove (e : Event) : launching e -> not_Remove e.
Proof. destruct e; cbn; auto. Qed.

Lemma launching_no_teardown (e : Event) : launching e -> no_teardown e.
Proof. destruct e; cbn; auto. Qed.

(** X2: once the configuration file is created it is removed on every path
    out of [NewTestServerConfig] (return, [t.Fatalf], panic): the removal is
    the last call made, and the only removal of a file. *)
Theorem config_file_always_removed (env : Env) (retries : nat)
  (cb : ServerConfigCallback) (w : World) (dataDir configFile : string) :
  created env dataDir configFile ->
  exists evs,
    trace (snd (NewTestServerConfig env retries cb w))
    = trace w ++ evs ++ [Remove configFile]
    /\ Forall not_Remove evs.
Proof.
  intros Hc. rewrite (NewTestServerConfig_created _ _ _ _ _ _ Hc). unfold defer.
  set (w2 := emit (TempFile "" "consul") (emit (TempDir "" "consul") w)).
  destruct (launch_world env retries cb dataDir configFile w2) as (evs & Htr & Hevs & _).
  destruct (launch env retries cb dataDir configFile w2) as [o w'].
  exists ([TempDir "" "consul"; TempFile "" "consul"] ++ evs).
  cbn in Htr |- *. rewrite Htr, <- !app_assoc. split; [reflexivity | ].
  repeat (apply Forall_cons; split; [exact I | ]).
  eapply Forall_impl; [exact Hevs | exact launching_not_Remove].
Qed.

Lemma config_file_always_removed_witness :
  exists evs,
    trace (snd (NewTestServerConfig happyEnv 0 None init))
    = trace init ++ evs ++ [Remove "/tmp/consul2"]
    /\ Forall not_Remove evs.
Proof.
  apply (config_file_always_removed happyEnv 0 None init "/tmp/consul1" "/tmp/consul2").
  exact happy_created.
Defined.

(** X3: [NewTestServerConfig] never tears down what it set up: on no path,
    for no environment and no callback, does it run a command to completion
    (it kills no process) or remove a directory tree (the data directory
    stays), also when the launch fails after the directory is created or
    after the agent is started. *)
Theorem launch_never_tears_down (env : Env) (retries : nat)
  (cb : ServerConfigCallback) (w : World) :
  exists evs,
    trace (snd (NewTestServerConfig env retries cb w)) = trace w ++ evs
    /\ Forall no_teardown evs.
Proof.
  rewrite NewTestServerConfig_steps.
  destruct (exec_LookPath env "consul") as [path e0].
  destruct (is_err e0 || String.eqb path "").
  { eexists. cbn. rewrite <- app_assoc. split; [reflexivity | repeat constructor]. }
  cbn zeta.
  destruct (ioutil_TempDir env "" "consul") as [dataDir [e | ]].
  { eexists. cbn. rewrite <- app_assoc. split; [reflexivity | repeat constructor]. }
  destruct (ioutil_TempFile env "" "consul") as [configFile [e | ]].
  { eexists. cbn. rewrite <- !app_assoc. split; [reflexivity | repeat constructor]. }
  unfold defer.
  set (w2 := emit (TempFile "" "consul") (emit (TempDir "" "consul") w)).
  destruct (launch_world env retries cb dataDir configFile w2) as (evs & Htr & Hevs & _).
  destruct (launch env retries cb dataDir configFile w2) as [o w'].
  exists ([TempDir "" "consul"; TempFile "" "consul"] ++ evs ++ [Remove configFile]).
  cbn in Htr |- *. rewrite Htr, <- !app_assoc. split; [reflexivity | ].
  repeat (apply Forall_cons; split; [exact I | ]).
  apply Forall_app_2; [ | repeat constructor].
  eapply Forall_impl; [exact Hevs | exact launching_no_teardown].
Qed.

(** X4: when the data directory cannot be created the test is failed at
    once with that error: nothing else is called, no index is drawn. *)
Theorem fails_when_no_data_dir (env : Env) (retries : nat)
  (cb : ServerConfigCallback) (w : World) (path dataDir : string) (e : Err) :
  exec_LookPath env "consul" = (path, nil) -> path <> "" ->
  ioutil_TempDir env "" "consul" = (dataDir, Some e) ->
  NewTestServerConfig env retries cb w
  = (Goexit, emit (T_Fatalf "err: %s" (Some e)) (emit (TempDir "" "consul") w)).
Proof.
  intros Hlook Hpath Hdir. rewrite NewTestServerConfig_steps, Hlook, Hdir.
  apply String.eqb_neq in Hpath. now rewrite Hpath.
Qed.

Lemma fails_when_no_data_dir_witness :
  NewTestServerConfig tempDirFailsEnv 3 None init
  = (Goexit,
     emit (T_Fatalf "err: %s" (Some (OsError "no space left on device")))
       (emit (TempDir "" "consul") init)).
Proof.
  apply (fails_when_no_data_dir tempDirFailsEnv 3 None init "/usr/bin/consul" "");
    [reflexivity | discriminate | reflexivity].
Defined.

(** X5: when the configuration file cannot be created the test is failed
    at once with that error, and the data directory created just before is
    left in place: no removal is called, and no index is drawn. *)
Theorem fails_when_no_config_file (env : Env) (retries : nat)
  (cb : ServerConfigCallback) (w : World) (path dataDir configFile : string)
  (e : Err) :
  exec_LookPath env "consul" = (path, nil) -> path <> "" ->
  ioutil_TempDir env "" "consul" = (dataDir, nil) ->
  ioutil_TempFile env "" "consul" = (configFile, Some e) ->
  NewTestServerConfig env retries cb w
  = (Goexit,
     emit (T_Fatalf "err: %s" (Some e))
       (emit (TempFile "" "consul") (emit (TempDir "" "consul") w))).
Proof.
  intros Hlook Hpath Hdir Hfile.
  rewrite NewTestServerConfig_steps, Hlook, Hdir, Hfile.
  apply String.eqb_neq in Hpath. now rewrite Hpath.
Qed.

Lemma fails_when_no_config_file_witness :
  NewTestServerConfig tempFileFailsEnv 3 None init
  = (Goexit,
     emit (T_Fatalf "err: %s" (Some (OsError "no space left on device")))
       (emit (TempFile "" "consul") (emit (TempDir "" "consul") init))).
Proof.
  apply (fails_when_no_config_file tempFileFailsEnv 3 None init
           "/usr/bin/consul" "/tmp/consul1" "");
    [reflexivity | discriminate | reflexivity | reflexivity].
Defined.

Lemma emit_trace (e : Event) (w : World) : trace (emit e w) = trace w ++ [e].
Proof. reflexivity. Qed.

(** X6: when the write of the configuration fails the test is failed with
    that error: the agent is not started, the file is removed, the data
    directory stays, and the index drawn is spent. *)
Theorem fails_when_write_fails (env : Env) (retries : nat)
  (cb : ServerConfigCallback) (w : World) (dataDir configFile : string) (e : Err) :
  created env dataDir configFile ->
  let doc := Marshal (configured cb dataDir (GoInt.int (GoInt.uint64 (offset w + 1)))) in
  File_Write env configFile doc = Some e ->
  NewTestServerConfig env retries cb w
  = (Goexit,
     {| offset := GoInt.uint64 (offset w + 1);
        requests := requests w;
        trace := trace w ++ [TempDir "" "consul"; TempFile "" "consul";
                             Write configFile doc;
                             T_Fatalf "err: %s" (Some e);
                             Remove configFile] |}).
Proof.
  intros Hc doc Hwrite.
  rewrite (NewTestServerConfig_created _ _ _ _ _ _ Hc). unfold defer.
  rewrite launch_steps. cbn zeta. cbn [offset emit]. fold doc. rewrite Hwrite.
  f_equal. apply World_eq; cbn; [reflexivity | reflexivity | ].
  now rewrite <- !app_assoc.
Qed.

Lemma fails_when_write_fails_witness :
  fst (NewTestServerConfig writeFailsEnv 3 None init) = Goexit.
Proof.
  rewrite (fails_when_write_fails writeFailsEnv 3 None init
             "/tmp/consul1" "/tmp/consul2" (OsError "no space left on device")
             happy_created eq_refl).
  reflexivity.
Defined.

(** X7: when the agent cannot be started the test is failed with that
    error: no request is made, the file is removed, the data directory
    stays, and the index drawn is spent. *)
Theorem fails_when_start_fails (env : Env) (retries : nat)
  (cb : ServerConfigCallback) (w : World) (dataDir configFile : string)
  (pid : Z) (e : Err) :
  created env dataDir configFile ->
  let doc := Marshal (configured cb dataDir (GoInt.int (GoInt.uint64 (offset w + 1)))) in
  let argv := ["consul"; "agent"; "-config-file"; configFile] in
  File_Write env configFile doc = nil ->
  Cmd_Start env argv = (pid, Some e) ->
  NewTestServerConfig env retries cb w
  = (Goexit,
     {| offset := GoInt.uint64 (offset w + 1);
        requests := requests w;
        trace := trace w ++ [TempDir "" "consul"; TempFile "" "consul";
                             Write configFile doc; Close configFile;
                             Start argv;
                             T_Fatalf "err: %s" (Some e);
                             Remove configFile] |}).
Proof.
  intros Hc doc argv Hwrite Hstart.
  rewrite (NewTestServerConfig_created _ _ _ _ _ _ Hc). unfold defer.
  rewrite launch_steps. cbn zeta. cbn [offset emit]. fold doc argv.
  rewrite Hwrite, Hstart.
  f_equal. apply World_eq; cbn; [reflexivity | reflexivity | ].
  now rewrite <- !app_assoc.
Qed.

Lemma fails_when_start_fails_witness :
  fst (NewTestServerConfig startFailsEnv 3 None init) = Goexit.
Proof.
  rewrite (fails_when_start_fails startFailsEnv 3 None init
             "/tmp/consul1" "/tmp/consul2" 0 (OsError "fork/exec: permission denied")
             happy_created eq_refl eq_refl).
  reflexivity.
Defined.

(** X8: a launch that gets as far as creating the configuration file
    spends exactly one index, however it ends: the counter is one step on
    also when the write or the start fails, or the wait panics. *)
Theorem launch_spends_one_index (env : Env) (retries : nat)
  (cb : ServerConfigCallback) (w : World) (dataDir configFile : string) :
  created env dataDir configFile ->
  offset (snd (NewTestServerConfig env retries cb w)) = GoInt.uint64 (offset w + 1).
Proof.
  intros Hc. rewrite (NewTestServerConfig_created _ _ _ _ _ _ Hc). unfold defer.
  set (w2 := emit (TempFile "" "consul") (emit (TempDir "" "consul") w)).
  destruct (launch_world env retries cb dataDir configFile w2) as (evs & _ & _ & Hoff).
  destruct (launch env retries cb dataDir configFile w2) as [o w'].
  cbn in Hoff |- *. exact Hoff.
Qed.

Lemma launch_spends_one_index_witness :
  offset (snd (NewTestServerConfig happyEnv 0 None init)) = GoInt.uint64 (offset init + 1).
Proof.
  apply (launch_spends_one_index happyEnv 0 None init "/tmp/consul1" "/tmp/consul2").
  exact happy_created.
Defined.

(** X9: a callback that leaves the port block nil makes the launch panic
    on the nil pointer when [waitForLeader] reads the HTTP port: by then
    the agent is started; no request is made, and the agent is not killed. *)
Theorem panics_on_nil_ports (env : Env) (retries : nat)
  (cb : ServerConfigCallback) (w : World) (dataDir configFile : string) (pid : Z) :
  created env dataDir configFile ->
  let config := configured cb dataDir (GoInt.int (GoInt.uint64 (offset w + 1))) in
  let argv := ["consul"; "agent"; "-config-file"; configFile] in
  File_Write env configFile (Marshal config) = nil ->
  Cmd_Start env argv = (pid, nil) ->
  TestServerConfig.Ports config = None ->
  NewTestServerConfig env retries cb w
  = (Panic (Some (RuntimeError "invalid memory address or nil pointer dereference")),
     {| offset := GoInt.uint64 (offset w + 1);
        requests := requests w;
        trace := trace w ++ [TempDir "" "consul"; TempFile "" "consul";
                             Write configFile (Marshal config); Close configFile;
                             Start argv;
                             Remove configFile] |}).
Proof.
  intros Hc config argv Hwrite Hstart Hports.
  rewrite (NewTestServerConfig_created _ _ _ _ _ _ Hc). unfold defer.
  rewrite launch_steps. cbn zeta. cbn [offset emit]. fold config argv.
  rewrite Hwrite, Hstart.
  unfold waitForLeader. cbn [TestServer.config]. rewrite Hports.
  unfold panic. f_equal. apply World_eq; cbn; [reflexivity | reflexivity | ].
  now rewrite <- !app_assoc.
Qed.

Lemma panics_on_nil_ports_witness :
  fst (NewTestServerConfig happyEnv 3 clearPorts init)
  = Panic (Some (RuntimeError "invalid memory address or nil pointer dereference")).
Proof.
  rewrite (panics_on_nil_ports happyEnv 3 clearPorts init
             "/tmp/consul1" "/tmp/consul2" 4242
             happy_created eq_refl eq_refl eq_refl).
  reflexivity.
Defined.

(** ** What a check and a wait do to the outside *)

(** X10: one run of the readiness check makes exactly one request, to the
    address it is given; the body of a response is closed whether or not
    the response is ready, a transport error leaves nothing to close; the
    leader value is printed only when it is not "true"; the counter of
    indices is not touched. *)
Theorem check_closes_every_body (env : Env) (url : string) (w : World) :
  let w' := snd (readinessCheck env url w) in
  requests w' = S (requests w)
  /\ offset w' = offset w
  /\ match http_Get env (requests w) url with
     | GetErr _ => trace w' = trace w ++ [HttpGet url]
     | GetOk resp =>
         let leader := Header.Get (Header resp) "X-Consul-KnownLeader" in
         (leader = "true" -> trace w' = trace w ++ [HttpGet url; BodyClose])
         /\ (leader <> "true" ->
             trace w' = trace w ++ [HttpGet url; BodyClose; Println leader])
     end.
Proof.
  cbn zeta. rewrite readinessCheck_snd. cbn [requests offset trace].
  split; [reflexivity | split; [reflexivity | ]].
  destruct (http_Get env (requests w) url) as [resp | err]; [ | reflexivity].
  cbn zeta. split; intros H.
  - apply String.eqb_eq in H. now rewrite H.
  - apply String.eqb_neq in H. now rewrite H.
Qed.

Lemma readinessCheck_extends_at (env : Env) (url : string) (w : World) :
  extends_by (polling_at url) w (snd (readinessCheck env url w)).
Proof.
  rewrite readinessCheck_snd. eexists. cbn [trace offset].
  split; [reflexivity | split; [ | reflexivity]].
  apply Forall_cons. split; [reflexivity | ].
  destruct (http_Get env (requests w) url) as [resp | err]; [ | constructor].
  cbn zeta.
  destruct (String.eqb (Header.Get (Header resp) "X-Consul-KnownLeader") "true");
    repeat constructor.
Qed.

Lemma WaitForResult_extends_by (P : Event -> Prop) (check : M (bool * error)) :
  P Sleep ->
  (forall w, exists r w', check w = (Ret r, w') /\ extends_by P w w') ->
  forall (n : nat) (w : World),
    extends_by P w (snd (WaitForResult n check giveUp w)).
Proof.
  intros HSleep Hcheck n. induction n as [ | n IH]; intros w;
    destruct (Hcheck w) as ([ok err] & w1 & Hrun & Hext);
    cbn [WaitForResult]; rewrite (bind_Ret _ _ _ _ _ Hrun);
    destruct ok; try exact Hext.
  rewrite (bind_Ret _ _ w1 (emit Sleep w1) tt) by reflexivity.
  eapply extends_by_trans; [exact Hext | ].
  eapply extends_by_trans; [ | apply IH].
  now apply extends_by_emit.
Qed.

(** X11: every request [waitForLeader] makes goes to 127.0.0.1, at the
    HTTP port of the configuration the handle holds (so at the port a
    callback set) and the path /v1/catalog/nodes; besides requests it only
    closes bodies, prints and sleeps, and it leaves the counter alone. *)
Theorem waitForLeader_polls_config_port (env : Env) (retries : nat)
  (s : TestServer.t) (w : World) (ports : TestPortConfig.t) :
  TestServerConfig.Ports (TestServer.config s) = Some ports ->
  exists evs,
    trace (snd (waitForLeader env retries s w)) = trace w ++ evs
    /\ Forall (polling_at (statusURL (TestPortConfig.HTTP ports))) evs
    /\ offset (snd (waitForLeader env retries s w)) = offset w.
Proof.
  intros Hports. unfold waitForLeader. rewrite Hports.
  fold (statusURL (TestPortConfig.HTTP ports)).
  set (url := statusURL (TestPortConfig.HTTP ports)).
  assert (Hc : forall w0, exists r w',
             readinessCheck env url w0 = (Ret r, w')
             /\ extends_by (polling_at url) w0 w').
  { intros w0. destruct (readinessCheck_returns env url w0) as (r & w' & H).
    exists r, w'. split; [exact H | ].
    pose proof (readinessCheck_extends_at env url w0) as E. now rewrite H in E. }
  pose proof (WaitForResult_extends_by (polling_at url) _ I Hc retries w) as E.
  destruct (WaitForResult retries _ giveUp w) as [[[] | v | ] w'] eqn:Hrun; cbn in E.
  - now rewrite (bind_Ret _ _ _ _ _ Hrun).
  - now rewrite (bind_Panic _ _ _ _ _ Hrun).
  - now rewrite (bind_Goexit _ _ _ _ Hrun).
Qed.

Lemma waitForLeader_polls_config_port_witness :
  exists evs,
    trace (snd (waitForLeader happyEnv 3
                  (TestServer.mk 4242 "/tmp/consul1" (defaultConfig 1)) init))
    = trace init ++ evs
    /\ Forall (polling_at "http://127.0.0.1:18801/v1/catalog/nodes") evs
    /\ offset (snd (waitForLeader happyEnv 3
                      (TestServer.mk 4242 "/tmp/consul1" (defaultConfig 1)) init))
       = offset init.
Proof.
  apply (waitForLeader_polls_config_port happyEnv 3
           (TestServer.mk 4242 "/tmp/consul1" (defaultConfig 1)) init (defaultPorts 1)).
  reflexivity.
Defined.

(** ** From launch to teardown *)

Lemma launch_handle_full (env : Env) (retries : nat) (cb : ServerConfigCallback)
  (dataDir configFile : string) (w w' : World) (server : TestServer.t) :
  launch env retries cb dataDir configFile w = (Ret server, w') ->
  server
  = {| TestServer.pid := fst (Cmd_Start env ["consul"; "agent"; "-config-file"; configFile]);
       TestServer.dataDir := dataDir;
       TestServer.config :=
         configured cb dataDir (GoInt.int (GoInt.uint64 (offset w + 1))) |}.
Proof.
  rewrite launch_steps. cbn zeta.
  destruct (File_Write env configFile _) as [e | ]; [discriminate | ].
  destruct (Cmd_Start env _) as [pid [e | ]]; [discriminate | ].
  destruct (waitForLeader env retries _ _) as [[[e | ] | v | ] w4];
    try discriminate.
  intros H. injection H as <- _. reflexivity.
Qed.

(** X12: the handle a launch returns holds the pid the start returned, the
    directory [NewTestServerConfig] created and the configuration it
    serialized; so [Stop] on it kills that pid and removes that directory,
    whatever data directory a callback put in the configuration. *)
Theorem Stop_undoes_launch (env : Env) (retries : nat)
  (cb : ServerConfigCallback) (w w' : World) (dataDir configFile : string)
  (server : TestServer.t) :
  created env dataDir configFile ->
  NewTestServerConfig env retries cb w = (Ret server, w') ->
  let pid := fst (Cmd_Start env ["consul"; "agent"; "-config-file"; configFile]) in
  server
  = {| TestServer.pid := pid;
       TestServer.dataDir := dataDir;
       TestServer.config :=
         configured cb dataDir (GoInt.int (GoInt.uint64 (offset w + 1))) |}
  /\ forall w0,
       trace (snd (Stop env server w0))
       = trace w0 ++ [Run ["kill"; "-9"; Sprintf_d pid]; RemoveAll dataDir].
Proof.
  intros Hc Hrun pid.
  rewrite (NewTestServerConfig_created _ _ _ _ _ _ Hc) in Hrun. unfold defer in Hrun.
  destruct (launch env retries cb dataDir configFile _) as [o w3] eqn:Hl.
  injection Hrun as -> _.
  apply launch_handle_full in Hl. cbn [offset emit] in Hl. fold pid in Hl.
  split; [exact Hl | ].
  intros w0. rewrite Hl. unfold Stop, cmd_Run. run.
  destruct (Cmd_Run env _); cbn; now rewrite <- app_assoc.
Qed.

Lemma Stop_undoes_launch_witness :
  trace (snd (Stop happyEnv
                {| TestServer.pid := 4242;
                   TestServer.dataDir := "/tmp/consul1";
                   TestServer.config :=
                     configured (setDataDir "/srv/consul") "/tmp/consul1" 1 |}
                init))
  = [Run ["kill"; "-9"; "4242"]; RemoveAll "/tmp/consul1"].
Proof.
  destruct (Stop_undoes_launch happyEnv 3 (setDataDir "/srv/consul") init
              (snd (NewTestServerConfig happyEnv 3 (setDataDir "/srv/consul") init))
              "/tmp/consul1" "/tmp/consul2"
              {| TestServer.pid := 4242;
                 TestServer.dataDir := "/tmp/consul1";
                 TestServer.config :=
                   configured (setDataDir "/srv/consul") "/tmp/consul1" 1 |}
              happy_created eq_refl) as [_ H].
  exact (H init).
Defined.

(** ** Ports of the indices a process draws *)

Lemma add_int (a z : Z) : GoInt.add a (GoInt.int z) = GoInt.int (a + z).
Proof.
  unfold GoInt.add, GoInt.int. f_equal.
  replace (a + ((z + 2 ^ 63) mod 2 ^ 64 - 2 ^ 63) + 2 ^ 63)
    with (a + (z + 2 ^ 63) mod 2 ^ 64) by lia.
  rewrite Zplus_mod_idemp_r. f_equal. lia.
Qed.

(** Two ports of drawn indices are equal only when base plus position
    agree. *)
Lemma drawn_port_eq_inv (a b o i j : Z) :
  Z.abs a <= 20000 -> Z.abs b <= 20000 -> Z.abs (i - j) < 200 ->
  GoInt.add a (GoInt.int (o + i + 1)) = GoInt.add b (GoInt.int (o + j + 1)) ->
  a - b = j - i.
Proof.
  intros Ha Hb Hd H. rewrite !add_int in H.
  destruct (int_eq_inv _ _ H) as [k Hk].
  assert (k = 0) by nia. subst k. lia.
Qed.

(** X13: in every state of the counter, also across its wrap, two indices
    drawn fewer than 200 requests apart give port blocks with no port in
    common. *)
Theorem drawn_ports_disjoint (n i j : nat) (w : World) (a b : Z) :
  (i < j)%nat -> (j - i < 200)%nat ->
  indices n w !! i = Some a -> indices n w !! j = Some b ->
  forall p q,
    In p (TestPortConfig.ports (defaultPorts a)) ->
    In q (TestPortConfig.ports (defaultPorts b)) ->
    p <> q.
Proof.
  intros Hij Hd Ha Hb p q Hp Hq E. subst q.
  assert (Hjn : (j < n)%nat).
  { apply lookup_lt_Some in Hb. now rewrite indices_length in Hb. }
  rewrite indices_lookup in Ha by lia. rewrite indices_lookup in Hb by lia.
  injection Ha as <-. injection Hb as <-.
  unfold TestPortConfig.ports, defaultPorts in Hp, Hq. simpl in Hp, Hq.
  repeat (destruct Hp as [Hp | Hp]; [ | ]); try contradiction; subst p;
    repeat (destruct Hq as [Hq | Hq]; [ | ]); try contradiction;
    apply drawn_port_eq_inv in Hq; lia.
Qed.

Lemma drawn_ports_disjoint_witness :
  Forall (fun p => Forall (fun q => p <> q) (TestPortConfig.ports (defaultPorts 2)))
    (TestPortConfig.ports (defaultPorts 1)).
Proof.
  apply List.Forall_forall. intros p Hp.
  apply List.Forall_forall. intros q Hq.
  apply (drawn_ports_disjoint 2 0 1 init 1 2);
    [lia | lia | reflexivity | reflexivity | exact Hp | exact Hq].
Defined.

(** X14: for an index from 0 up to the last one whose ports fit an [int],
    all six default ports are ports a socket can be bound to exactly when
    the index is at most 46535: from index 46536 on the DNS port is above
    65535. *)
Theorem default_ports_valid (idx : Z) :
  0 <= idx <= GoInt.MaxInt - 19000 ->
  (Forall valid_port (TestPortConfig.ports (defaultPorts idx)) <-> idx <= 46535).
Proof.
  intros Hidx. unfold GoInt.MaxInt in Hidx.
  unfold TestPortConfig.ports, defaultPorts, GoInt.add. cbn.
  rewrite !int_small by (unfold GoInt.MinInt, GoInt.MaxInt; lia).
  unfold valid_port. split.
  - intros H. apply Forall_cons_1 in H. lia.
  - intros H. repeat (apply Forall_cons; split; [lia | ]). constructor.
Qed.

Lemma default_ports_valid_witness :
  Forall valid_port (TestPortConfig.ports (defaultPorts 1)) <-> 1 <= 46535.
Proof. apply (default_ports_valid 1). vm_compute. split; discriminate. Defined.

(** ** The document *)

Lemma member_bootstrap (c : TestServerConfig.t) :
  member "bootstrap" (Marshal c)
  = if TestServerConfig.Bootstrap c then Some (JBool true) else None.
Proof.
  destruct c as [bootstrap server dataDir logLevel addresses ports].
  unfold Marshal, member, bool_field, string_field, omitempty, ptr_field. cbn.
  destruct bootstrap, server, dataDir, logLevel, addresses, ports; reflexivity.
Qed.

Lemma member_server (c : TestServerConfig.t) :
  member "server" (Marshal c)
  = if TestServerConfig.Server c then Some (JBool true) else None.
Proof.
  destruct c as [bootstrap server dataDir logLevel addresses ports].
  unfold Marshal, member, bool_field, string_field, omitempty, ptr_field. cbn.
  destruct bootstrap, server, dataDir, logLevel, addresses, ports; reflexivity.
Qed.

Lemma member_log_level (c : TestServerConfig.t) :
  member "log_level" (Marshal c)
  = if String.eqb "" (TestServerConfig.LogLevel c) then None
    else Some (json_string (TestServerConfig.LogLevel c)).
Proof.
  destruct c as [bootstrap server dataDir logLevel addresses ports].
  unfold Marshal, member, bool_field, string_field, omitempty, ptr_field. cbn.
  destruct bootstrap, server, dataDir, logLevel, addresses, ports; reflexivity.
Qed.

Lemma member_addresses (c : TestServerConfig.t) :
  member "addresses" (Marshal c)
  = option_map marshalAddresses (TestServerConfig.Addresses c).
Proof.
  destruct c as [bootstrap server dataDir logLevel addresses ports].
  unfold Marshal, member, bool_field, string_field, omitempty, ptr_field. cbn.
  destruct bootstrap, server, dataDir, logLevel, addresses, ports; reflexivity.
Qed.

Lemma member_ports (c : TestServerConfig.t) :
  member "ports" (Marshal c)
  = option_map marshalPorts (TestServerConfig.Ports c).
Proof.
  destruct c as [bootstrap server dataDir logLevel addresses ports].
  unfold Marshal, member, bool_field, string_field, omitempty, ptr_field. cbn.
  destruct bootstrap, server, dataDir, logLevel, addresses, ports; reflexivity.
Qed.

(** A port is a member of the port block, under its key, unless it is 0. *)
Lemma port_members (p : TestPortConfig.t) :
  let port (z : Z) := if Z.eqb 0 z then None else Some (JNumber z) in
  member "dns" (marshalPorts p) = port (TestPortConfig.DNS p)
  /\ member "http" (marshalPorts p) = port (TestPortConfig.HTTP p)
  /\ member "rpc" (marshalPorts p) = port (TestPortConfig.RPC p)
  /\ member "serf_lan" (marshalPorts p) = port (TestPortConfig.SerfLan p)
  /\ member "serf_wan" (marshalPorts p) = port (TestPortConfig.SerfWan p)
  /\ member "server" (marshalPorts p) = port (TestPortConfig.Server p).
Proof.
  destruct p as [dns http rpc lan wan server].
  unfold marshalPorts, member, int_field, omitempty.
  cbn [TestPortConfig.DNS TestPortConfig.HTTP TestPortConfig.RPC
       TestPortConfig.SerfLan TestPortConfig.SerfWan TestPortConfig.Server].
  destruct (Z.eqb 0 dns), (Z.eqb 0 http), (Z.eqb 0 rpc), (Z.eqb 0 lan),
    (Z.eqb 0 wan), (Z.eqb 0 server); repeat split; reflexivity.
Qed.

Lemma omitted_string_inj (s1 s2 : string) :
  Utf8.ValidString s1 = true -> Utf8.ValidString s2 = true ->
  (if String.eqb "" s1 then None else Some (json_string s1))
  = (if String.eqb "" s2 then None else Some (json_string s2)) ->
  s1 = s2.
Proof.
  intros V1 V2. rewrite (json_string_valid s1 V1), (json_string_valid s2 V2).
  destruct (String.eqb_spec "" s1), (String.eqb_spec "" s2); congruence.
Qed.

Lemma omitted_int_inj (z1 z2 : Z) :
  (if Z.eqb 0 z1 then None else Some (JNumber z1))
  = (if Z.eqb 0 z2 then None else Some (JNumber z2)) ->
  z1 = z2.
Proof.
  destruct (Z.eqb_spec 0 z1), (Z.eqb_spec 0 z2); congruence.
Qed.

Lemma omitted_bool_inj (b1 b2 : bool) :
  (if b1 then Some (JBool true) else None) = (if b2 then Some (JBool true) else None) ->
  b1 = b2.
Proof. destruct b1, b2; congruence. Qed.

Lemma marshalPorts_inj (p1 p2 : TestPortConfig.t) :
  marshalPorts p1 = marshalPorts p2 -> p1 = p2.
Proof.
  intros H.
  pose proof (port_members p1) as M1. pose proof (port_members p2) as M2.
  cbv zeta in M1, M2. rewrite H in M1.
  destruct M1 as (A1 & B1 & C1 & D1 & E1 & F1).
  destruct M2 as (A2 & B2 & C2 & D2 & E2 & F2).
  rewrite A2 in A1. rewrite B2 in B1. rewrite C2 in C1.
  rewrite D2 in D1. rewrite E2 in E1. rewrite F2 in F1.
  apply omitted_int_inj in A1, B1, C1, D1, E1, F1.
  destruct p1, p2; cbn in *. congruence.
Qed.

Lemma marshalAddresses_inj (a1 a2 : TestAddressConfig.t) :
  Utf8.ValidString (TestAddressConfig.HTTP a1) = true ->
  Utf8.ValidString (TestAddressConfig.HTTP a2) = true ->
  marshalAddresses a1 = marshalAddresses a2 -> a1 = a2.
Proof.
  destruct a1 as [h1], a2 as [h2]. cbn [TestAddressConfig.HTTP].
  intros V1 V2. unfold marshalAddresses, string_field, omitempty.
  cbn [TestAddressConfig.HTTP].
  rewrite (json_string_valid h1 V1), (json_string_valid h2 V2).
  intros H. f_equal.
  destruct (String.eqb_spec "" h1), (String.eqb_spec "" h2); congruence.
Qed.

Lemma Marshal_inj (c1 c2 : TestServerConfig.t) :
  valid_strings c1 -> valid_strings c2 -> Marshal c1 = Marshal c2 -> c1 = c2.
Proof.
  intros (V1 & W1 & U1) (V2 & W2 & U2) H.
  pose proof (member_bootstrap c1) as A. rewrite H, member_bootstrap in A.
  pose proof (member_server c1) as B. rewrite H, member_server in B.
  pose proof (member_data_dir c1) as C. rewrite H, member_data_dir in C.
  pose proof (member_log_level c1) as D. rewrite H, member_log_level in D.
  pose proof (member_addresses c1) as E. rewrite H, member_addresses in E.
  pose proof (member_ports c1) as F. rewrite H, member_ports in F.
  apply omitted_bool_inj in A, B.
  apply omitted_string_inj in C; [ | assumption | assumption].
  apply omitted_string_inj in D; [ | assumption | assumption].
  assert (Ea : TestServerConfig.Addresses c2 = TestServerConfig.Addresses c1).
  { destruct (TestServerConfig.Addresses c1) as [a1 | ],
             (TestServerConfig.Addresses c2) as [a2 | ]; cbn in E;
      try congruence.
    f_equal. apply marshalAddresses_inj; congruence. }
  assert (Ep : TestServerConfig.Ports c2 = TestServerConfig.Ports c1).
  { destruct (TestServerConfig.Ports c1) as [p1 | ],
             (TestServerConfig.Ports c2) as [p2 | ]; cbn in F;
      try congruence.
    f_equal. apply marshalPorts_inj. congruence. }
  destruct c1, c2; cbn in *. congruence.
Qed.

(** X15: as long as their strings are UTF-8, two configurations that
    differ have documents that differ: nothing a callback sets is lost or
    confused in the serialization, a field at its zero value being the one
    its absence stands for. *)
Theorem Marshal_injective (c1 c2 : TestServerConfig.t) :
  valid_strings c1 -> valid_strings c2 -> c1 <> c2 -> Marshal c1 <> Marshal c2.
Proof.
  intros V1 V2 Hne H. apply Hne.
  apply Marshal_inj; assumption.
Qed.

Lemma Marshal_injective_witness :
  Marshal (TestServerConfig.set_DataDir "/tmp/consul1" (defaultConfig 1))
  <> Marshal (TestServerConfig.set_DataDir "/srv/consul" (defaultConfig 1)).
Proof.
  apply (Marshal_injective
           (TestServerConfig.set_DataDir "/tmp/consul1" (defaultConfig 1))
           (TestServerConfig.set_DataDir "/srv/consul" (defaultConfig 1)));
    [repeat split | repeat split | discriminate].
Defined.

(** Beyond UTF-8 the document does not tell data directories apart: two
    that differ in an invalid byte are written alike. *)
Example invalid_bytes_written_alike :
  Marshal (TestServerConfig.set_DataDir notUtf8 (defaultConfig 1))
  = Marshal (TestServerConfig.set_DataDir (String (ascii_of_N 254) EmptyString)
               (defaultConfig 1)).
Proof. reflexivity. Qed.

(** The document of the defaults, written out. *)
Lemma default_document_eq (dataDir : string) (idx : Z) :
  dataDir <> "" -> 0 <= idx <= GoInt.MaxInt - 19000 ->
  Marshal (configured None dataDir idx)
  = JObject
      [("bootstrap", JBool true); ("server", JBool true);
       ("data_dir", json_string dataDir); ("log_level", JString "debug");
       ("ports",
        JObject
          [("dns", JNumber (19000 + idx)); ("http", JNumber (18800 + idx));
           ("rpc", JNumber (18600 + idx)); ("serf_lan", JNumber (18200 + idx));
           ("serf_wan", JNumber (18400 + idx)); ("server", JNumber (18000 + idx))])].
Proof.
  intros Hdir Hidx. unfold GoInt.MaxInt in Hidx.
  unfold configured, Marshal, defaultConfig, defaultPorts, GoInt.add.
  unfold bool_field, string_field, ptr_field, omitempty.
  cbn [TestServerConfig.set_DataDir TestServerConfig.Bootstrap TestServerConfig.Server
       TestServerConfig.DataDir TestServerConfig.LogLevel TestServerConfig.Addresses
       TestServerConfig.Ports].
  unfold marshalPorts, int_field, omitempty.
  cbn [TestPortConfig.DNS TestPortConfig.HTTP TestPortConfig.RPC
       TestPortConfig.SerfLan TestPortConfig.SerfWan TestPortConfig.Server].
  rewrite !int_small by (unfold GoInt.MinInt, GoInt.MaxInt; lia).
  assert (Hd : String.eqb "" dataDir = false)
    by (apply String.eqb_neq; congruence).
  rewrite Hd.
  repeat match goal with
         | |- context [Z.eqb 0 ?z] =>
             replace (Z.eqb 0 z) with false by (symmetry; apply Z.eqb_neq; lia)
         end.
  reflexivity.
Qed.

(** X16: [NewTestServer] is the launch without a callback: once the
    directory (with a name) and the file are created, and for an index from
    0 up to the last one whose ports fit an [int], the one document it
    writes is the default one, with the directory just created as its data
    directory (as [encoding/json] writes that name: as it is when it is
    UTF-8) and the ports of the index drawn. *)
Theorem NewTestServer_writes_defaults (env : Env) (retries : nat) (w : World)
  (dataDir configFile : string) :
  created env dataDir configFile -> dataDir <> "" ->
  let idx := GoInt.int (GoInt.uint64 (offset w + 1)) in
  0 <= idx <= GoInt.MaxInt - 19000 ->
  exists rest,
    trace (snd (NewTestServer env retries w))
    = trace w ++ [TempDir "" "consul"; TempFile "" "consul";
                  Write configFile
                    (JObject
                       [("bootstrap", JBool true); ("server", JBool true);
                        ("data_dir", json_string dataDir); ("log_level", JString "debug");
                        ("ports",
                         JObject
                           [("dns", JNumber (19000 + idx)); ("http", JNumber (18800 + idx));
                            ("rpc", JNumber (18600 + idx)); ("serf_lan", JNumber (18200 + idx));
                            ("serf_wan", JNumber (18400 + idx));
                            ("server", JNumber (18000 + idx))])])] ++ rest
    /\ Forall not_Write rest
    /\ (Utf8.ValidString dataDir = true -> json_string dataDir = JString dataDir).
Proof.
  intros Hc Hdir idx Hidx. unfold NewTestServer.
  rewrite (NewTestServerConfig_created _ _ _ _ _ _ Hc). unfold defer.
  set (w2 := emit (TempFile "" "consul") (emit (TempDir "" "consul") w)).
  destruct (launch_trace env retries None dataDir configFile w2) as (rest & Htr & Hrest).
  destruct (launch env retries None dataDir configFile w2) as [o w'].
  cbn [offset emit w2] in Htr. fold idx in Htr.
  rewrite (default_document_eq dataDir idx Hdir Hidx) in Htr.
  exists (rest ++ [Remove configFile]). cbn in Htr |- *.
  rewrite Htr, <- !app_assoc. split; [reflexivity | ].
  split; [ | apply json_string_valid].
  apply Forall_app_2; [exact Hrest | repeat constructor].
Qed.

Lemma NewTestServer_writes_defaults_witness :
  exists rest,
    trace (snd (NewTestServer happyEnv 3 init))
    = trace init ++ [TempDir "" "consul"; TempFile "" "consul";
                     Write "/tmp/consul2"
                       (JObject
                          [("bootstrap", JBool true); ("server", JBool true);
                           ("data_dir", JString "/tmp/consul1");
                           ("log_level", JString "debug");
                           ("ports",
                            JObject
                              [("dns", JNumber (19000 + 1)); ("http", JNumber (18800 + 1));
                               ("rpc", JNumber (18600 + 1)); ("serf_lan", JNumber (18200 + 1));
                               ("serf_wan", JNumber (18400 + 1));
                               ("server", JNumber (18000 + 1))])])] ++ rest
    /\ Forall not_Write rest
    /\ (Utf8.ValidString "/tmp/consul1" = true ->
        json_string "/tmp/consul1" = JString "/tmp/consul1").
Proof.
  apply (NewTestServer_writes_defaults happyEnv 3 init "/tmp/consul1" "/tmp/consul2");
    [exact happy_created | discriminate | vm_compute; split; discriminate].
Defined.
